(** * Adjoint medium gradients and legacy export of tidy3d

    A shallow embedding of
    - [tidy3d/plugins/adjoint/components/medium.py]: the volume
      discretisation and the [store_vjp] methods of the jax-compatible
      media, and
    - [tidy3d_core/convert.py]: the legacy JSON export.

    The media compute with floating-point numbers.  Their arithmetic is
    the interface [PyFloat]: the development of the media is parametric
    in it and assumes no algebraic law, so that what is proved holds
    whatever rounding, overflow and NaN do.  [Binary64] implements the
    interface with the IEEE 754 double precision numbers of Python; the
    definitions are run, and the statements about rounding are made, on
    that implementation.  The export only stores numbers and rescales
    them by constants; there they are exact rationals.  Exceptions are
    values of [exn] carried by the [result] monad. *)

From Stdlib Require Import Floats QArith Qcanon Qround ZArith Lia.
From stdpp Require Import base option list numbers strings pretty gmap.

Local Open Scope string_scope.
Local Open Scope list_scope.

(** ** Exceptions and the error monad *)

Inductive exn : Type :=
  | ZeroDivisionError
  | OverflowError
  | ValueError
  | KeyError
  | IndexError
  | UnboundLocalError.

Inductive result (A : Type) : Type :=
  | Ok (a : A)
  | Raise (e : exn).
Arguments Ok {A} a.
Arguments Raise {A} e.

#[global] Instance result_ret : MRet result := λ A a, Ok a.
#[global] Instance result_bind : MBind result := λ A B k m,
  match m with
  | Ok a => k a
  | Raise e => Raise e
  end.

(** Monadic left fold: the shape of a [for] loop whose body may raise. *)
Fixpoint foldM {A S : Type} (body : S → A → result S) (s : S) (l : list A) : result S :=
  match l with
  | [] => Ok s
  | a :: l' => s' ← body s a ; foldM body s' l'
  end.

(** [d[k]] on a dict: [KeyError] when the key is absent. *)
Definition getitem {V : Type} (d : gmap string V) (k : string) : result V :=
  match d !! k with
  | Some v => Ok v
  | None => Raise KeyError
  end.

(** ** Floats *)

(** The type of the floats, and the floating-point operations the media
    perform.  Each operation gives the float that Python computes; no law
    relates them to the arithmetic of the real numbers.  The three
    properties required are that [0 == 0], and of [np.linspace] that it
    returns [num] samples and that the last of several samples is
    [stop]. *)
Class FloatType : Type := pyfloat : Type.

Class PyFloat `{FloatType} : Type := {
  (** an [int] used where a float is expected, and the literals [0.0],
      [1.0] *)
  of_int : Z → pyfloat;
  (** [a + b], [a - b], [a * b] *)
  fadd : pyfloat → pyfloat → pyfloat;
  fsub : pyfloat → pyfloat → pyfloat;
  fmul : pyfloat → pyfloat → pyfloat;
  (** the quotient [a / b] for a divisor that is not zero *)
  truediv : pyfloat → pyfloat → pyfloat;
  (** [a == b] and [a < b] *)
  feq : pyfloat → pyfloat → bool;
  flt : pyfloat → pyfloat → bool;
  (** [int(x)], which raises on an infinity and on NaN *)
  py_int : pyfloat → result Z;
  (** [np.linspace(start, stop, num)] with the default [endpoint=True] *)
  linspace : pyfloat → pyfloat → Z → result (list pyfloat);
  feq_0_0 : feq (of_int 0) (of_int 0) = true;
  linspace_length (start stop : pyfloat) (num : Z) (samples : list pyfloat) :
    linspace start stop num = Ok samples →
    (0 ≤ num)%Z ∧ length samples = Z.to_nat num;
  linspace_last (start stop : pyfloat) (num : Z) (samples : list pyfloat) :
    linspace start stop num = Ok samples →
    (1 < num)%Z → last samples = Some stop;
}.

Infix "⊕" := fadd (at level 50, left associativity).
Infix "⊖" := fsub (at level 50, left associativity).
Infix "⊗" := fmul (at level 40, left associativity).

Section Floats.
Context `{PyFloat}.

(** [a / b]: Python raises on a zero divisor. *)
Definition fdiv (a b : pyfloat) : result pyfloat :=
  if feq b (of_int 0) then Raise ZeroDivisionError else Ok (truediv a b).

(** ** Bounds *)

Definition Coordinate : Type := pyfloat * pyfloat * pyfloat.
Definition Bound : Type := Coordinate * Coordinate.

Definition coord_list (c : Coordinate) : list pyfloat :=
  let '(x, y, z) := c in [x; y; z].

(** [max(a, b)] and [min(a, b)]: the first argument unless the second is
    strictly beyond it. *)
Definition fmax (a b : pyfloat) : pyfloat := if flt a b then b else a.
Definition fmin (a b : pyfloat) : pyfloat := if flt b a then b else a.

(** Modelled from the spec: [Geometry.bounds_intersection] lives in
    [components/geometry.py], which is not among the sources.  The spec
    calls it the axis-aligned intersection of the two bounds: on every axis
    the larger of the two lower edges and the smaller of the two upper
    edges. *)
Definition bounds_intersection (bounds1 bounds2 : Bound) : Bound :=
  let '((x1, y1, z1), (X1, Y1, Z1)) := bounds1 in
  let '((x2, y2, z2), (X2, Y2, Z2)) := bounds2 in
  ((fmax x1 x2, fmax y1 y2, fmax z1 z2), (fmin X1 X2, fmin Y1 Y2, fmin Z1 Z2)).

(** ** Volume discretisation *)

(** number of integration points per unit wavelength in material *)
Definition PTS_PER_WVL_INTEGRATION : Z := 20.

(** [zip("xyz", rmin, rmax)] *)
Fixpoint zip3 {A B C : Type} (la : list A) (lb : list B) (lc : list C) : list (A * B * C) :=
  match la, lb, lc with
  | a :: la', b :: lb', c :: lc' => (a, b, c) :: zip3 la' lb' lc'
  | _, _, _ => []
  end.

Definition xyz : list string := ["x"; "y"; "z"].

(** The number of cells along a dimension of thickness [size]:
    [int(size * PTS_PER_WVL_INTEGRATION / wvl_mat) + 1]. *)
Definition num_cells_dim (size wvl_mat : pyfloat) : result Z :=
  q ← fdiv (size ⊗ of_int PTS_PER_WVL_INTEGRATION) wvl_mat ;
  n ← py_int q ;
  Ok (n + 1)%Z.

(** The loop state: [(vol_coords, d_vol)]. *)
Definition disc_state : Type := gmap string (list pyfloat) * pyfloat.

(** One iteration of the loop of [_get_volume_disc].  In [d_len / 2] the
    divisor is the literal 2, which is not zero. *)
Definition disc_step (wvl_mat : pyfloat) (st : disc_state)
    (it : string * pyfloat * pyfloat) : result disc_state :=
  let '(vol_coords, d_vol) := st in
  let '(coord_name, min_edge, max_edge) := it in
  let size := max_edge ⊖ min_edge in
  if feq size (of_int 0) then Ok st
  else
    n ← num_cells_dim size wvl_mat ;
    d_len ← fdiv size (of_int n) ;
    let d_vol := d_vol ⊗ d_len in
    coords_interp ← linspace (min_edge ⊕ truediv d_len (of_int 2))
                             (max_edge ⊖ truediv d_len (of_int 2)) n ;
    Ok (<[coord_name := coords_interp]> vol_coords, d_vol).

(** The triples the loop runs over: [zip("xyz", rmin, rmax)]. *)
Definition axis_items (b : Bound) : list (string * pyfloat * pyfloat) :=
  let '(rmin, rmax) := b in zip3 xyz (coord_list rmin) (coord_list rmax).

(** ** Field data *)

Record Geometry : Type := { bounds : Bound }.
Record Monitor : Type := { geometry : Geometry }.

(** [FieldData]: the monitor and the field components that are present,
    by label.  [DA] is the type of the labelled arrays. *)
Record FieldData (DA : Type) : Type := {
  monitor : Monitor;
  field_components : gmap string DA;
}.
#[global] Arguments monitor {DA} _.
#[global] Arguments field_components {DA} _.

(** ** numpy arrays *)

(** A real [ndarray]: its shape and its elements in row-major order. *)
Record ndarray : Type := { shape : list nat; data : list pyfloat }.

Definition np_size (s : list nat) : nat := foldr Nat.mul 1%nat s.

(** [a.reshape(new_shape)]: the same elements under another shape,
    [ValueError] when the sizes disagree. *)
Definition reshape (a : ndarray) (new_shape : list nat) : result ndarray :=
  if decide (np_size new_shape = length (data a))
  then Ok {| shape := new_shape; data := data a |}
  else Raise ValueError.

(** [c * a] for a scalar [c]. *)
Definition np_scale (c : pyfloat) (a : ndarray) : ndarray :=
  {| shape := shape a; data := fmul c <$> data a |}.

(** ** The array libraries

    The operations of xarray that the media call on field arrays, and
    the sum of jax.numpy.  The development is parametric in them: what
    is proved holds for whatever these operations compute.
    [ReferenceArrays] below implements them for running the
    definitions. *)
Class ArrayLib : Type := {
  (** a [DataArray] with named dimensions and complex entries *)
  DataArray : Type;
  (** [a * b], entry by entry *)
  da_mul : DataArray → DataArray → result DataArray;
  (** [a.real] *)
  da_real : DataArray → DataArray;
  (** [a.isel(...)]: integer selection, dropping the dimensions *)
  da_isel : DataArray → gmap string nat → result DataArray;
  (** [a.interp(...)]: interpolation onto new coordinates *)
  da_interp : DataArray → gmap string (list pyfloat) → result DataArray;
  (** [a.values], read off a real-valued array *)
  da_values : DataArray → ndarray;
  (** [jnp.sum(a)] *)
  jnp_sum : ndarray → pyfloat;
}.

(** The fields the media inherit from their plain counterparts
    ([components/medium.py], not among the sources): whatever they are,
    [copy(update=...)] carries them over. *)
Class Inherited : Type := {
  MediumFields : Type;
  (** the defaults taken by [JaxMedium(permittivity=...)] *)
  medium_defaults : MediumFields;
  AnisotropicFields : Type;
  CustomFields : Type;
}.

(** Modelled from the spec: [JaxDataArray] is declared in
    [data/data_array.py], which is not among the sources.  The spec has
    it as a labelled multi-dimensional array: the values and, per
    dimension name and in order, a coordinate vector. *)
Record JaxDataArray : Type := {
  values : ndarray;
  coords : list (string * list pyfloat);
}.

(** [coords[k]] on the ordered coordinate dict. *)
Fixpoint coords_get (c : list (string * list pyfloat)) (k : string) : result (list pyfloat) :=
  match c with
  | [] => Raise KeyError
  | (k', v) :: c' => if decide (k' = k) then Ok v else coords_get c' k
  end.

(** Modelled from the spec: [JaxPermittivityDataset] is declared in
    [data/dataset.py], which is not among the sources: the three diagonal
    components. *)
Record JaxPermittivityDataset : Type := {
  eps_xx : JaxDataArray;
  eps_yy : JaxDataArray;
  eps_zz : JaxDataArray;
}.

End Floats.

Section Media.
Context `{PyFloat} `{!ArrayLib} `{Inherited}.

(** *** [JaxMedium] *)

Record JaxMedium : Type := {
  permittivity : pyfloat;
  medium_fields : MediumFields;
}.

Definition _get_volume_disc (self : JaxMedium) (grad_data : FieldData DataArray)
    (sim_bounds : Bound) (wvl_mat : pyfloat) : result disc_state :=
  let mnt_bounds := bounds (geometry (monitor grad_data)) in
  foldM (disc_step wvl_mat) (∅, of_int 1)
    (axis_items (bounds_intersection mnt_bounds sim_bounds)).

Definition field_contribution (self : JaxMedium) (field : string)
    (grad_data_fwd grad_data_adj : FieldData DataArray)
    (sim_bounds : Bound) (wvl_mat : pyfloat) : result pyfloat :=
  '(vol_coords, d_vol) ← _get_volume_disc self grad_data_fwd sim_bounds wvl_mat;
  e_fwd ← getitem (field_components grad_data_fwd) field;
  e_adj ← getitem (field_components grad_data_adj) field;
  product ← da_mul e_fwd e_adj;
  let e_dotted := da_real product in
  selected ← da_isel e_dotted {["f" := 0%nat]};
  integrand ← da_interp selected vol_coords;
  Ok (d_vol ⊗ jnp_sum (da_values integrand)).

Definition JaxMedium_store_vjp (self : JaxMedium)
    (grad_data_fwd grad_data_adj : FieldData DataArray)
    (sim_bounds : Bound) (wvl_mat : pyfloat) : result JaxMedium :=
  vjp_permittivty ←
    foldM (λ vjp_permittivty field,
             c ← field_contribution self field grad_data_fwd grad_data_adj
                   sim_bounds wvl_mat;
             Ok (vjp_permittivty ⊕ c))
          (of_int 0) ["Ex"; "Ey"; "Ez"];
  Ok {| permittivity := vjp_permittivty; medium_fields := medium_fields self |}.

(** *** [JaxAnisotropicMedium] *)

Record JaxAnisotropicMedium : Type := {
  xx : JaxMedium;
  yy : JaxMedium;
  zz : JaxMedium;
  anisotropic_fields : AnisotropicFields;
}.

(** [AnisotropicMedium.components] (inherited): the diagonal media by
    name. *)
Definition components (self : JaxAnisotropicMedium) : gmap string JaxMedium :=
  <["zz" := zz self]> (<["yy" := yy self]> (<["xx" := xx self]> ∅)).

(** [self.copy(update=vjp_fields)] for an update dict on [xx], [yy], [zz]. *)
Definition copy_update_components (self : JaxAnisotropicMedium)
    (update : gmap string JaxMedium) : JaxAnisotropicMedium :=
  {| xx := default (xx self) (update !! "xx");
     yy := default (yy self) (update !! "yy");
     zz := default (zz self) (update !! "zz");
     anisotropic_fields := anisotropic_fields self |}.

Definition JaxAnisotropicMedium_store_vjp (self : JaxAnisotropicMedium)
    (grad_data_fwd grad_data_adj : FieldData DataArray)
    (sim_bounds : Bound) (wvl_mat : pyfloat) : result JaxAnisotropicMedium :=
  vjp_fields ←
    foldM (λ (vjp_fields : gmap string JaxMedium) (component : string),
             let field_name := "E" +:+ component in
             let component_name := component +:+ component in
             jax_medium ← getitem (components self) component_name;
             vjp_ii ← field_contribution jax_medium field_name
                        grad_data_fwd grad_data_adj sim_bounds wvl_mat;
             Ok (<[component_name :=
                     {| permittivity := vjp_ii; medium_fields := medium_defaults |}]>
                   vjp_fields))
          ∅ xyz;
  Ok (copy_update_components self vjp_fields).

(** *** [JaxCustomMedium] *)

Record JaxCustomMedium : Type := {
  eps_dataset : JaxPermittivityDataset;
  custom_fields : CustomFields;
}.

(** [{dim_pt: coords[dim_pt] for dim_pt in "xyz" if len(coords[dim_pt]) > 1}] *)
Definition interp_coords_of (coords : list (string * list pyfloat))
    : result (gmap string (list pyfloat)) :=
  foldM (λ (acc : gmap string (list pyfloat)) (dim_pt : string),
           c ← coords_get coords dim_pt;
           if decide (1 < length c)%nat then Ok (<[dim_pt := c]> acc) else Ok acc)
        ∅ xyz.

(** [{dim_pt: 0 for dim_pt in "xyz" if len(coords[dim_pt]) <= 1}] *)
Definition isel_coords_of (coords : list (string * list pyfloat))
    : result (gmap string nat) :=
  foldM (λ (acc : gmap string nat) (dim_pt : string),
           c ← coords_get coords dim_pt;
           if decide (length c ≤ 1)%nat then Ok (<[dim_pt := 0%nat]> acc) else Ok acc)
        ∅ xyz.

(** One iteration of the loop of [JaxCustomMedium.store_vjp]: the gradient
    array of the component [orig_data_array] from the field [field_name]. *)
Definition vjp_data_array (orig_data_array : JaxDataArray) (field_name : string)
    (grad_data_fwd grad_data_adj : FieldData DataArray) : result JaxDataArray :=
  let coords := coords orig_data_array in
  interp_coords ← interp_coords_of coords;
  isel_coords ← isel_coords_of coords;
  e_fwd ← getitem (field_components grad_data_fwd) field_name;
  e_adj ← getitem (field_components grad_data_adj) field_name;
  product ← da_mul e_fwd e_adj;
  selected ← da_isel product (<["f" := 0%nat]> isel_coords);
  e_dotted ← da_interp selected interp_coords;
  let d_vol : pyfloat := of_int 1 in
  let vjp_shape := (λ kc : string * list pyfloat, length kc.2) <$> coords in
  vjp_values ← reshape (np_scale d_vol (da_values (da_real e_dotted))) vjp_shape;
  Ok {| values := vjp_values; coords := coords |}.

(** The loop runs over [dim] in ["xyz"], with [eps_field_name] the
    component [eps_{dim}{dim}] and [field_name] the field [E{dim}]. *)
Definition JaxCustomMedium_store_vjp (self : JaxCustomMedium)
    (grad_data_fwd grad_data_adj : FieldData DataArray)
    (sim_bounds : Bound) (wvl_mat : pyfloat) : result JaxCustomMedium :=
  let ds := eps_dataset self in
  vjp_xx ← vjp_data_array (eps_xx ds) "Ex" grad_data_fwd grad_data_adj;
  vjp_yy ← vjp_data_array (eps_yy ds) "Ey" grad_data_fwd grad_data_adj;
  vjp_zz ← vjp_data_array (eps_zz ds) "Ez" grad_data_fwd grad_data_adj;
  let vjp_eps_dataset := {| eps_xx := vjp_xx; eps_yy := vjp_yy; eps_zz := vjp_zz |} in
  Ok {| eps_dataset := vjp_eps_dataset; custom_fields := custom_fields self |}.

End Media.

(** ** Binary64: the floats of Python

    IEEE 754 double precision, as the primitive floats of the kernel
    compute it, with rounding to nearest, ties to even. *)

Module B64.

(** The float nearest to an integer. *)
Definition of_int (n : Z) : float := SF2Prim (binary_normalize prec emax n 0 false).

(** The rational that a finite float denotes; [None] for an infinity
    and for NaN. *)
Definition exact (x : float) : option Q :=
  match Prim2SF x with
  | S754_zero _ => Some (0 # 1)
  | S754_finite s m e =>
      let magnitude :=
        match e with
        | Z0 => Z.pos m # 1
        | Z.pos p => Z.pos (m * Pos.pow 2 p) # 1
        | Z.neg p => Z.pos m # Pos.pow 2 p
        end in
      Some (if s then Qopp magnitude else magnitude)
  | S754_infinity _ => None
  | S754_nan => None
  end.

(** The integer part of a rational, towards zero. *)
Definition truncate (v : Q) : Z := Z.quot (Qnum v) (Z.pos (Qden v)).

(** [int(x)]: truncation towards zero; [OverflowError] on an infinity,
    [ValueError] on NaN. *)
Definition py_int (x : float) : result Z :=
  match exact x with
  | Some v => Ok (truncate v)
  | None => if PrimFloat.is_nan x then Raise ValueError else Raise OverflowError
  end.

(** [a == b] and [a < b] *)
Definition feq (a b : float) : bool := PrimFloat.eqb a b.
Definition flt (a b : float) : bool := PrimFloat.ltb a b.

(** [np.linspace(start, stop, num)] as numpy computes it: the indices
    [0 .. num-1] times the step [(stop - start) / (num - 1)], plus
    [start]; the last of several samples is then set to [stop].  A single
    sample is [0 * (stop - start) + start]. *)
Definition linspace (start stop : float) (num : Z) : result (list float) :=
  if decide (num < 0)%Z then Raise ValueError
  else
    let div := (num - 1)%Z in
    let delta := PrimFloat.sub stop start in
    let y := (λ i : nat, of_int (Z.of_nat i)) <$> seq 0 (Z.to_nat num) in
    let y :=
      if decide (0 < div)%Z then
        let step := PrimFloat.div delta (of_int div) in
        if feq step (of_int 0)
        then (λ v, PrimFloat.mul (PrimFloat.div v (of_int div)) delta) <$> y
        else (λ v, PrimFloat.mul v step) <$> y
      else (λ v, PrimFloat.mul v delta) <$> y in
    let y := (λ v, PrimFloat.add v start) <$> y in
    Ok (if decide (1 < num)%Z then <[Nat.pred (length y) := stop]> y else y).

(** A float that is not negative: zero, a finite float or an infinity
    with the sign bit clear, or NaN. *)
Definition sf_nonneg (x : spec_float) : Prop :=
  match x with
  | S754_zero s => s = false
  | S754_infinity s => s = false
  | S754_finite s _ _ => s = false
  | S754_nan => True
  end.

(** A float that is positive: finite or infinite, and not zero. *)
Definition sf_pos (x : spec_float) : Prop :=
  match x with
  | S754_infinity s => s = false
  | S754_finite s _ _ => s = false
  | _ => False
  end.

End B64.

#[global] Instance Binary64Type : FloatType := float.

#[global, refine] Instance Binary64 : PyFloat := {|
  of_int := B64.of_int;
  fadd := PrimFloat.add;
  fsub := PrimFloat.sub;
  fmul := PrimFloat.mul;
  truediv := PrimFloat.div;
  feq := B64.feq;
  flt := B64.flt;
  py_int := B64.py_int;
  linspace := B64.linspace;
  feq_0_0 := eq_refl;
|}.
Proof.
  - abstract
      (unfold pyfloat, Binary64Type; intros start stop num samples; unfold B64.linspace;
       destruct (decide (num < 0)%Z); [done|]; intros [= <-]; split; [lia|];
       destruct (decide (1 < num)%Z); rewrite ?length_insert, length_fmap;
       destruct (decide (0 < num - 1)%Z); try destruct (B64.feq _ _);
       by rewrite length_fmap, length_fmap, length_seq).
  - abstract
      (unfold pyfloat, Binary64Type; intros start stop num samples; unfold B64.linspace;
       destruct (decide (num < 0)%Z); [done|];
       destruct (decide (1 < num)%Z); [|lia]; intros [= <-] _;
       rewrite last_lookup, length_insert; apply list_lookup_insert_eq;
       rewrite length_fmap;
       destruct (decide (0 < num - 1)%Z); try destruct (B64.feq _ _);
       rewrite length_fmap, length_fmap, length_seq; lia).
Defined.

(** ** A reference implementation of the array libraries

    Arrays with named dimensions over complex binary64 numbers, stored in
    row-major order, and the sum taken from left to right.  It serves to
    run the definitions above on concrete data; nothing that is proved
    for every [ArrayLib] depends on it.  Where xarray would fill in NaN
    (interpolation outside the grid) or align two different grids, this
    implementation raises. *)

Section Reference.
Local Open Scope float_scope.

Definition complex : Type := float * float.

Definition cmul (a b : complex) : complex :=
  (a.1 * b.1 - a.2 * b.2, a.1 * b.2 + a.2 * b.1).

(** [(1 - t) * a + t * b] *)
Definition clerp (t : float) (a b : complex) : complex :=
  ((1 - t) * a.1 + t * b.1, (1 - t) * a.2 + t * b.2).

Record RefArray : Type := {
  ra_dims : list (string * list float);
  ra_data : list complex;
}.

(** The number of entries under a list of dimensions. *)
Definition dims_size (dims : list (string * list float)) : nat :=
  np_size ((λ d : string * list float, length d.2) <$> dims).

(** Cut a list into [count] consecutive pieces of [width] elements. *)
Fixpoint chunks {A : Type} (width count : nat) (l : list A) : list (list A) :=
  match count with
  | O => []
  | S count' => take width l :: chunks width count' (drop width l)
  end.

(** The dimensions before [name], its coordinates, the dimensions after. *)
Fixpoint split_dims (name : string) (dims : list (string * list float))
    : option (list (string * list float) * list float * list (string * list float)) :=
  match dims with
  | [] => None
  | (k, c) :: dims' =>
      if decide (k = name) then Some ([], c, dims')
      else '(before, c', after) ← split_dims name dims';
           Some ((k, c) :: before, c', after)
  end.

(** Rewrite the rows along one axis: the data is [before] groups of [n]
    rows of [after] entries, and [f] maps each group to its new rows. *)
Definition along_axis (before n after : nat)
    (f : list (list complex) → result (list (list complex)))
    (l : list complex) : result (list complex) :=
  let rows := chunks after (before * n) l in
  let groups := chunks n before rows in
  new_groups ← mapM f groups;
  Ok (concat (concat new_groups)).

Definition ra_isel1 (a : RefArray) (sel : string * nat) : result RefArray :=
  let '(name, i) := sel in
  match split_dims name (ra_dims a) with
  | None => Raise ValueError
  | Some (before, c, after) =>
      d ← along_axis (dims_size before) (length c) (dims_size after)
            (λ rows, match rows !! i with
                     | Some r => Ok [r]
                     | None => Raise IndexError
                     end)
            (ra_data a);
      Ok {| ra_dims := before ++ after; ra_data := d |}
  end.

(** The row at coordinate [c], between the two rows whose coordinates
    enclose it. *)
Fixpoint interp_rows (xs : list float) (rows : list (list complex)) (c : float)
    : result (list complex) :=
  match xs, rows with
  | x0 :: xs', r0 :: rows' =>
      match xs', rows' with
      | x1 :: _, r1 :: _ =>
          if (x0 <=? c) && (c <=? x1) then
            t ← fdiv (c - x0) (x1 - x0);
            Ok (zip_with (clerp t) r0 r1)
          else interp_rows xs' rows' c
      | _, _ => Raise ValueError
      end
  | _, _ => Raise ValueError
  end.

Definition ra_interp1 (a : RefArray) (onto : string * list float) : result RefArray :=
  let '(name, cs) := onto in
  match split_dims name (ra_dims a) with
  | None => Raise ValueError
  | Some (before, c, after) =>
      d ← along_axis (dims_size before) (length c) (dims_size after)
            (λ rows, mapM (interp_rows c rows) cs)
            (ra_data a);
      Ok {| ra_dims := before ++ (name, cs) :: after; ra_data := d |}
  end.

(** Two arrays are on the same grid when their dimensions have the same
    names and equal coordinates. *)
Fixpoint same_dims (d1 d2 : list (string * list float)) : bool :=
  match d1, d2 with
  | [], [] => true
  | (k1, c1) :: d1', (k2, c2) :: d2' =>
      bool_decide (k1 = k2)
      && bool_decide (length c1 = length c2)
      && forallb (λ p : float * float, p.1 =? p.2) (zip c1 c2)
      && same_dims d1' d2'
  | _, _ => false
  end.

Definition ra_mul (a b : RefArray) : result RefArray :=
  if same_dims (ra_dims a) (ra_dims b)
  then Ok {| ra_dims := ra_dims a; ra_data := zip_with cmul (ra_data a) (ra_data b) |}
  else Raise ValueError.

Definition ra_real (a : RefArray) : RefArray :=
  {| ra_dims := ra_dims a; ra_data := (λ z : complex, (z.1, 0)) <$> ra_data a |}.

Definition ra_values (a : RefArray) : ndarray :=
  {| shape := (λ d : string * list float, length d.2) <$> ra_dims a;
     data := fst <$> ra_data a |}.

Definition ra_sum (a : ndarray) : float := foldl PrimFloat.add 0 (data a).

End Reference.

#[global] Instance ReferenceArrays : ArrayLib := {|
  DataArray := RefArray;
  da_mul := ra_mul;
  da_real := ra_real;
  da_isel := λ a indexers, foldM ra_isel1 a (map_to_list indexers);
  da_interp := λ a onto, foldM ra_interp1 a (map_to_list onto);
  da_values := ra_values;
  jnp_sum := ra_sum;
|}.

(** Inherited fields for running the definitions: the conductivity of a
    medium, nothing else. *)
#[global] Instance ReferenceFields : Inherited := {|
  MediumFields := float;
  medium_defaults := 0%float;
  AnisotropicFields := unit;
  CustomFields := unit;
|}.

(** ** Registration with the differentiation engine *)

Section PyTree.
Context `{PyFloat} `{Inherited}.

(** Modelled from the spec: [tree_flatten] and [tree_unflatten], which
    [register_pytree_node_class] expects of the three media, come from
    [JaxObject] in [base.py], which is not among the sources.  The spec
    has flatten take an object to its ordered leaf values, the raw numbers
    of its differentiable fields, and to the static metadata needed to
    rebuild it (shape, coordinates, the other fields); unflatten takes the
    metadata and the leaves back to the object. *)
Definition JaxMedium_tree_flatten (m : JaxMedium) : list pyfloat * MediumFields :=
  ([permittivity m], medium_fields m).

Definition JaxMedium_tree_unflatten (aux_data : MediumFields) (children : list pyfloat)
    : result JaxMedium :=
  match children with
  | [p] => Ok {| permittivity := p; medium_fields := aux_data |}
  | _ => Raise ValueError
  end.

Definition JaxAnisotropicMedium_tree_flatten (m : JaxAnisotropicMedium)
    : list pyfloat * (MediumFields * MediumFields * MediumFields * AnisotropicFields) :=
  let '(cx, ax) := JaxMedium_tree_flatten (xx m) in
  let '(cy, ay) := JaxMedium_tree_flatten (yy m) in
  let '(cz, az) := JaxMedium_tree_flatten (zz m) in
  (cx ++ cy ++ cz, (ax, ay, az, anisotropic_fields m)).

Definition JaxAnisotropicMedium_tree_unflatten
    (aux_data : MediumFields * MediumFields * MediumFields * AnisotropicFields)
    (children : list pyfloat) : result JaxAnisotropicMedium :=
  let '(ax, ay, az, rest) := aux_data in
  match children with
  | [px; py; pz] =>
      mx ← JaxMedium_tree_unflatten ax [px];
      my ← JaxMedium_tree_unflatten ay [py];
      mz ← JaxMedium_tree_unflatten az [pz];
      Ok {| xx := mx; yy := my; zz := mz; anisotropic_fields := rest |}
  | _ => Raise ValueError
  end.

(** The metadata of a [JaxDataArray]: the shape of its values and its
    coordinates. *)
Definition array_aux : Type := list nat * list (string * list pyfloat).

Definition JaxDataArray_tree_flatten (a : JaxDataArray) : list pyfloat * array_aux :=
  (data (values a), (shape (values a), coords a)).

Definition JaxDataArray_tree_unflatten (aux_data : array_aux) (children : list pyfloat)
    : result JaxDataArray :=
  let '(shp, crd) := aux_data in
  if decide (length children = np_size shp)
  then Ok {| values := {| shape := shp; data := children |}; coords := crd |}
  else Raise ValueError.

Definition JaxCustomMedium_tree_flatten (m : JaxCustomMedium)
    : list pyfloat * (array_aux * array_aux * array_aux * CustomFields) :=
  let '(cx, ax) := JaxDataArray_tree_flatten (eps_xx (eps_dataset m)) in
  let '(cy, ay) := JaxDataArray_tree_flatten (eps_yy (eps_dataset m)) in
  let '(cz, az) := JaxDataArray_tree_flatten (eps_zz (eps_dataset m)) in
  (cx ++ cy ++ cz, (ax, ay, az, custom_fields m)).

Definition JaxCustomMedium_tree_unflatten
    (aux_data : array_aux * array_aux * array_aux * CustomFields)
    (children : list pyfloat) : result JaxCustomMedium :=
  let '(ax, ay, az, rest) := aux_data in
  let nx := np_size ax.1 in
  let ny := np_size ay.1 in
  dx ← JaxDataArray_tree_unflatten ax (take nx children);
  dy ← JaxDataArray_tree_unflatten ay (take ny (drop nx children));
  dz ← JaxDataArray_tree_unflatten az (drop ny (drop nx children));
  Ok {| eps_dataset := {| eps_xx := dx; eps_yy := dy; eps_zz := dz |};
        custom_fields := rest |}.

(** A well-formed array has as many values as its shape says. *)
Definition valid_array (a : JaxDataArray) : Prop :=
  length (data (values a)) = np_size (shape (values a)).

Definition valid_custom_medium (m : JaxCustomMedium) : Prop :=
  valid_array (eps_xx (eps_dataset m))
  ∧ valid_array (eps_yy (eps_dataset m))
  ∧ valid_array (eps_zz (eps_dataset m)).

End PyTree.

(** ** Legacy export ([tidy3d_core/convert.py]) *)

Module Convert.

(** The export stores the numbers of a simulation and rescales some of
    them by a constant; nothing in it depends on how they are rounded.
    They are kept as exact rationals ([Qc], canonical fractions, so that
    equality is Leibniz equality). *)
Local Open Scope Qc_scope.

Abbreviation float := Qc (only parsing).

(** An integer used where a float is expected. *)
Definition of_Z (n : Z) : float := Qc_of_Z n.

(** The fraction [n/d] as a float. *)
Definition frac (n : Z) (d : positive) : float := Q2Qc (n # d).

Definition Coordinate : Type := float * float * float.

Definition coord_list (c : Coordinate) : list float :=
  let '(x, y, z) := c in [x; y; z].

(** The values of the exported document: what Python puts in its dicts
    and lists. *)
#[local] Unset Elimination Schemes.
Inductive value : Type :=
  | VNone
  | VBool (b : bool)
  | VInt (n : Z)
  | VFloat (x : float)
  | VStr (s : string)
  | VList (l : list value)
  | VDict (d : list (string * value)).
#[local] Set Elimination Schemes.

(** A Python dict with string keys, in insertion order. *)
Abbreviation dict := (list (string * value)) (only parsing).

Fixpoint dict_get (d : dict) (k : string) : option value :=
  match d with
  | [] => None
  | (k', v) :: d' => if decide (k' = k) then Some v else dict_get d' k
  end.

(** [d[k] = v] *)
Fixpoint dict_set (d : dict) (k : string) (v : value) : dict :=
  match d with
  | [] => [(k, v)]
  | (k', v') :: d' => if decide (k' = k) then (k, v) :: d' else (k', v') :: dict_set d' k v
  end.

(** [d.update(other)] *)
Definition dict_update (d other : dict) : dict :=
  foldl (λ acc kv, dict_set acc kv.1 kv.2) d other.

Definition VCoordinate (c : Coordinate) : value :=
  VList (VFloat <$> coord_list c).

(** *** The attributes of a simulation that the export reads *)

Inductive AnyMedium : Type :=
  | Medium (permittivity conductivity : float)
  | OtherMedium (tag : nat).

#[global] Instance AnyMedium_eq_dec : EqDecision AnyMedium.
Proof. solve_decision. Defined.

Inductive AnyGeometry : Type :=
  | Box (center size : Coordinate)
  | Sphere (center : Coordinate) (radius : float)
  | Cylinder (center : Coordinate) (axis : nat) (radius length : float)
  | PolySlab (vertices : list (float * float)) (slab_bounds : float * float)
  | OtherGeometry.

Record Structure : Type := { geometry : AnyGeometry; medium : AnyMedium }.

Inductive SourceTime : Type :=
  | GaussianPulse (amplitude phase freq0 fwidth offset : float)
  | OtherSourceTime (amplitude phase : float).

Definition amplitude (t : SourceTime) : float :=
  match t with
  | GaussianPulse a _ _ _ _ => a
  | OtherSourceTime a _ => a
  end.

Inductive Source : Type :=
  | VolumeSource (source_time : SourceTime) (center size : Coordinate) (polarization : string)
  | OtherSource (source_time : SourceTime).

Definition source_time (s : Source) : SourceTime :=
  match s with
  | VolumeSource t _ _ _ => t
  | OtherSource t => t
  end.

Inductive MonitorKind : Type :=
  | FieldTimeMonitor (fields : list string)
  | FluxTimeMonitor
  | FieldMonitor (fields : list string) (freqs : list float)
  | FluxMonitor (freqs : list float)
  | OtherMonitor.

Record Monitor : Type := {
  center : Coordinate;
  size : Coordinate;
  kind : MonitorKind;
}.

(** [medium_map] is a property of [Simulation] that gives every medium of
    the structures its index; it is read here as a field. *)
Record Simulation : Type := {
  structures : list Structure;
  medium_map : list (AnyMedium * nat);
  sources : list (string * Source);
  monitors : list (string * Monitor);
  run_time : float;
}.

(** [medium_map[m]] *)
Fixpoint medium_index (mm : list (AnyMedium * nat)) (m : AnyMedium) : result nat :=
  match mm with
  | [] => Raise KeyError
  | (m', i) :: mm' => if decide (m' = m) then Ok i else medium_index mm' m
  end.

(** [s[i]] on a string, as a string of one character. *)
Definition str_index (s : string) (i : nat) : result string :=
  match String.get i s with
  | Some c => Ok (String c EmptyString)
  | None => Raise IndexError
  end.

(** [l[i]] on a list. *)
Definition list_index {A : Type} (l : list A) (i : nat) : result A :=
  match l !! i with
  | Some a => Ok a
  | None => Raise IndexError
  end.

(** [1e-12] and [1e12] *)
Definition pico : float := frac 1 1000000000000.
Definition tera : float := of_Z 1000000000000.

(** *** [old_json_structures] *)

Definition medium_entry (medium : AnyMedium) (imed : nat) : dict :=
  let med := [("name", VStr ("mat_" +:+ pretty imed))] in
  match medium with
  | Medium permittivity conductivity =>
      dict_update med
        [("type", VStr "Medium");
         ("permittivity", VList (replicate 3 (VFloat permittivity)));
         ("conductivity", VList (replicate 3 (VFloat conductivity)));
         ("poles", VList [])]
  | OtherMedium _ => med
  end.

(** One iteration of the loop over [enumerate(sim.structures)]. *)
Definition structures_step (medium_map : list (AnyMedium * nat)) (struct_list : list dict)
    (it : nat * Structure) : result (list dict) :=
  let '(istruct, structure) := it in
  mat_index ← medium_index medium_map (medium structure);
  let struct := [("name", VStr ("struct_" +:+ pretty istruct));
                 ("mat_index", VInt (Z.of_nat mat_index))] in
  match geometry structure with
  | Box cent size =>
      let '(cx, cy, cz) := cent in
      let '(sx, sy, sz) := size in
      let struct := dict_update struct
        [("type", VStr "Box");
         ("x_cent", VFloat cx); ("y_cent", VFloat cy); ("z_cent", VFloat cz);
         ("x_span", VFloat sx); ("y_span", VFloat sy); ("z_span", VFloat sz)] in
      Ok (struct_list ++ [struct])
  | Sphere (cx, cy, cz) radius =>
      let struct := dict_update struct
        [("type", VStr "Sphere");
         ("x_cent", VFloat cx); ("y_cent", VFloat cy); ("z_cent", VFloat cz);
         ("radius", VFloat radius)] in
      Ok (struct_list ++ [struct])
  | Cylinder (cx, cy, cz) axis radius length =>
      axis_name ← list_index ["x"; "y"; "z"] axis;
      let struct := dict_update struct
        [("type", VStr "Cylinder");
         ("x_cent", VFloat cx); ("y_cent", VFloat cy); ("z_cent", VFloat cz);
         ("axis", VStr axis_name);
         ("radius", VFloat radius);
         ("height", VFloat length)] in
      Ok (struct_list ++ [struct])
  | PolySlab vertices (lo, hi) =>
      let struct := dict_update struct
        [("type", VStr "PolySlab");
         ("vertices", VList ((λ v : float * float, VList [VFloat v.1; VFloat v.2]) <$> vertices));
         ("z_cent", VFloat ((lo + hi) / 2));
         ("z_size", VFloat (hi - lo))] in
      Ok (struct_list ++ [struct])
  | OtherGeometry => Ok struct_list
  end.

Definition old_json_structures (sim : Simulation) : result (list dict * list dict) :=
  let medium_list := (λ it : AnyMedium * nat, medium_entry it.1 it.2) <$> medium_map sim in
  struct_list ← foldM (structures_step (medium_map sim)) [] (imap pair (structures sim));
  Ok (medium_list, struct_list).

(** *** [old_json_sources] *)

(** The local variables of [old_json_sources] that live across the
    iterations; [None] is a variable not yet bound. *)
Record sources_state : Type := {
  src_list : list dict;
  src_time : option dict;
  src : option dict;
}.

(** Reading a local variable. *)
Definition read_local {A : Type} (v : option A) : result A :=
  match v with
  | Some a => Ok a
  | None => Raise UnboundLocalError
  end.

(** One iteration of the loop over [sim.sources.items()]. *)
Definition sources_step (st : sources_state) (it : string * Source) : result sources_state :=
  let '(name, source) := it in
  let src_time :=
    match source_time source with
    | GaussianPulse _ phase freq0 fwidth offset =>
        Some [("type", VStr "GaussianPulse");
              ("frequency", VFloat (freq0 * pico));
              ("fwidth", VFloat (fwidth * pico));
              ("offset", VFloat offset);
              ("phase", VFloat phase)]
    | OtherSourceTime _ _ => src_time st
    end in
  src ←
    match source with
    | VolumeSource _ center size polarization =>
        p0 ← str_index polarization 0;
        let component := if decide (p0 = "J") then "E" else "H" in
        p1 ← str_index polarization 1;
        let component := component +:+ p1 in
        src_time ← read_local src_time;
        Ok (Some [("name", VStr name);
                  ("type", VStr "VolumeSource");
                  ("source_time", VDict src_time);
                  ("center", VCoordinate center);
                  ("size", VCoordinate size);
                  ("component", VStr component);
                  ("amplitude", VFloat (amplitude (source_time source)))])
    | OtherSource _ => Ok (src st)
    end;
  appended ← read_local src;
  Ok {| src_list := src_list st ++ [appended]; src_time := src_time; src := src |}.

Definition old_json_sources (sim : Simulation) : result (list dict) :=
  st ← foldM sources_step {| src_list := []; src_time := None; src := None |} (sources sim);
  Ok (src_list st).

(** *** [old_json_monitors] *)

(** [np.any([field[0] == letter for field in fields])] *)
Definition any_field_starts (letter : string) (fields : list string) : result bool :=
  flags ← mapM (λ field, c ← str_index field 0; Ok (bool_decide (c = letter))) fields;
  Ok (existsb id flags).

(** The [store] list of a field monitor. *)
Definition field_store (fields : list string) : result (list value) :=
  has_E ← any_field_starts "E" fields;
  let store := if (has_E : bool) then [VStr "E"] else [] in
  has_H ← any_field_starts "H" fields;
  Ok (if (has_H : bool) then store ++ [VStr "H"] else store).

(** One iteration of the loop over [sim.monitors.items()]. *)
Definition monitors_step (sim : Simulation) (mnt_list : list dict)
    (it : string * Monitor) : result (list dict) :=
  let '(name, monitor) := it in
  let '(cx, cy, cz) := center monitor in
  let '(sx, sy, sz) := size monitor in
  let mnt := [("name", VStr name);
              ("x_cent", VFloat cx); ("y_cent", VFloat cy); ("z_cent", VFloat cz);
              ("x_span", VFloat sx); ("y_span", VFloat sy); ("z_span", VFloat sz)] in
  mnt ←
    match kind monitor with
    | FieldTimeMonitor fields =>
        store ← field_store fields;
        Ok (dict_update mnt
              [("type", VStr "TimeMonitor");
               ("t_start", VInt 0);
               ("t_stop", VFloat (run_time sim));
               ("t_step", VNone);
               ("store", VList store)])
    | FluxTimeMonitor =>
        Ok (dict_update mnt
              [("type", VStr "TimeMonitor");
               ("t_start", VInt 0);
               ("t_stop", VFloat (run_time sim));
               ("t_step", VNone);
               ("store", VList [VStr "flux"])])
    | FieldMonitor fields freqs =>
        store ← field_store fields;
        Ok (dict_update mnt
              [("type", VStr "FrequencyMonitor");
               ("frequency", VList ((λ f, VFloat (f * pico)) <$> freqs));
               ("store", VList store);
               ("interpolate", VBool true)])
    | FluxMonitor freqs =>
        Ok (dict_update mnt
              [("type", VStr "FrequencyMonitor");
               ("frequency", VList ((λ f, VFloat (f * pico)) <$> freqs));
               ("store", VList [VStr "flux"]);
               ("interpolate", VBool true)])
    | OtherMonitor => Ok mnt
    end;
  Ok (mnt_list ++ [mnt]).

Definition old_json_monitors (sim : Simulation) : result (list dict) :=
  foldM (monitors_step sim) [] (monitors sim).

(** *** What the export supports *)

Definition supported_geometry (g : AnyGeometry) : bool :=
  match g with OtherGeometry => false | _ => true end.

Definition supported_source (s : Source) : bool :=
  match s with VolumeSource _ _ _ _ => true | OtherSource _ => false end.

Definition supported_monitor (m : Monitor) : bool :=
  match kind m with OtherMonitor => false | _ => true end.

(** An entry of an exported list is well formed when it says what it is. *)
Definition well_formed (entry : dict) : Prop :=
  is_Some (dict_get entry "name") ∧ is_Some (dict_get entry "type").

(** *** [old_json_parameters] and [export_old_json] *)

(** The attributes of a simulation that only [old_json_parameters] reads.
    [grid_size] and [symmetry] are passed on as they are. *)
Record Settings : Type := {
  sim_center : Coordinate;
  sim_size : Coordinate;
  grid_size : value;
  symmetry : value;
  pml_layers : list (string * Z);
  courant : float;
  shutoff : float;
  subpixel : bool;
}.

Definition old_json_parameters (settings : Settings) (sim : Simulation) : dict :=
  let '(cx, cy, cz) := sim_center settings in
  let '(sx, sy, sz) := sim_size settings in
  let pml_layers :=
    (λ pml : string * Z, VDict [("profile", VStr pml.1); ("Nlayers", VInt pml.2)])
      <$> pml_layers settings in
  [("unit_length", VStr "um");
   ("unit_frequency", VStr "THz");
   ("unit_time", VStr "ps");
   ("x_cent", VFloat cx); ("y_cent", VFloat cy); ("z_cent", VFloat cz);
   ("x_span", VFloat sx); ("y_span", VFloat sy); ("z_span", VFloat sz);
   ("mesh_step", grid_size settings);
   ("symmetries", symmetry settings);
   ("pml_layers", VList pml_layers);
   ("run_time", VFloat (run_time sim * tera));
   ("courant", VFloat (courant settings));
   ("shutoff", VFloat (shutoff settings));
   ("subpixel", VBool (subpixel settings))].

Definition export_old_json (settings : Settings) (sim : Simulation) : result dict :=
  let sim_dict := dict_set [] "parameters" (VDict (old_json_parameters settings sim)) in
  '(medium_list, struct_list) ← old_json_structures sim;
  let sim_dict := dict_set sim_dict "materials" (VList (VDict <$> medium_list)) in
  let sim_dict := dict_set sim_dict "structures" (VList (VDict <$> struct_list)) in
  src_list ← old_json_sources sim;
  let sim_dict := dict_set sim_dict "sources" (VList (VDict <$> src_list)) in
  mnt_list ← old_json_monitors sim;
  let sim_dict := dict_set sim_dict "monitors" (VList (VDict <$> mnt_list)) in
  Ok sim_dict.

(** *** What the export can take

    A structure is exported when its medium has an index and, for a
    cylinder, its axis is one of 0, 1, 2. *)
Definition exportable_structure (mm : list (AnyMedium * nat)) (s : Structure) : Prop :=
  (∃ i, medium_index mm (medium s) = Ok i)
  ∧ match geometry s with
    | Cylinder _ axis _ _ => (axis < 3)%nat
    | _ => True
    end.

(** A volume source driven by a Gaussian pulse, with a polarization of at
    least two characters. *)
Definition exportable_source (s : Source) : Prop :=
  match s with
  | VolumeSource (GaussianPulse _ _ _ _ _) _ _ polarization =>
      (2 ≤ String.length polarization)%nat
  | _ => False
  end.

(** The field labels of a monitor. *)
Definition monitor_fields (m : Monitor) : list string :=
  match kind m with
  | FieldTimeMonitor fields => fields
  | FieldMonitor fields _ => fields
  | _ => []
  end.

(** The [name] of an entry. *)
Definition entry_name (entry : dict) : option value := dict_get entry "name".

End Convert.

(** ** The discretisation in the words of its documentation *)

Section Cells.
Context `{PyFloat}.

(** The cells of one axis of the intersection, from [lo] to [hi], at the
    wavelength [wvl_mat]: the sample coordinates and the cell width, if
    the axis contributes.  An axis without thickness contributes nothing.
    Any other axis is cut into [cell_count] cells, the number the
    discretisation chooses; the cell width is the extent divided by
    [cell_count], and the samples are [cell_count] points spaced linearly
    from [lo + width/2] to [hi - width/2]. *)
Inductive axis_cells (wvl_mat lo hi : pyfloat)
    : option (list pyfloat) → option pyfloat → Prop :=
  | axis_flat :
      feq (hi ⊖ lo) (of_int 0) = true →
      axis_cells wvl_mat lo hi None None
  | axis_thick (cell_count : Z) (width : pyfloat) (samples : list pyfloat) :
      feq (hi ⊖ lo) (of_int 0) = false →
      num_cells_dim (hi ⊖ lo) wvl_mat = Ok cell_count →
      fdiv (hi ⊖ lo) (of_int cell_count) = Ok width →
      linspace (lo ⊕ truediv width (of_int 2)) (hi ⊖ truediv width (of_int 2)) cell_count
      = Ok samples →
      axis_cells wvl_mat lo hi (Some samples) (Some width).

(** The product of the widths of the axes that contribute, taken in the
    order of the axes from 1. *)
Definition volume_element (widths : list (option pyfloat)) : pyfloat :=
  foldl (λ d_vol w, match w with Some width => d_vol ⊗ width | None => d_vol end)
        (of_int 1) widths.

End Cells.

(** ** Concrete inputs *)

Section Examples.
Local Open Scope float_scope.

(** The unit cube as monitor region, and a simulation domain that starts
    above it: along [z] their intersection runs from [1.5] down to [1]. *)
Definition unit_cube : Bound := ((0, 0, 0), (1, 1, 1)).
Definition domain_above : Bound := ((0, 0, 1.5), (1, 1, 2)).

Definition cube_data : FieldData RefArray :=
  {| monitor := {| geometry := {| bounds := unit_cube |} |};
     field_components := ∅ |}.

Definition vacuum : JaxMedium := {| permittivity := 1; medium_fields := 0 |}.

(** The domain that touches the unit cube from above: along [z] the
    intersection is the plane [z = 1]. *)
Definition domain_touching : Bound := ((0, 0, 1), (1, 1, 2)).

(** The doubles nearest to 0.1, 0.2, 0.3, 0.03, 0.09 and 1e-110. *)
Definition one_tenth : float := 0x1.999999999999ap-4.
Definition two_tenths : float := 0x1.999999999999ap-3.
Definition three_tenths : float := 0x1.3333333333333p-2.
Definition three_hundredths : float := 0x1.eb851eb851eb8p-6.
Definition nine_hundredths : float := 0x1.70a3d70a3d70ap-4.
Definition tiny : float := 0x1.80c903f7379f2p-366.

(** A field array on the corners of the unit cube at one frequency, with
    the same complex value everywhere. *)
Definition constant_field (re im : float) : RefArray :=
  {| ra_dims := [("x", [0; 1]); ("y", [0; 1]); ("z", [0; 1]); ("f", [200])];
     ra_data := replicate 8 (re, im) |}.

(** Field data over the unit cube with constant components. *)
Definition cube_fields (ex ey ez : complex) : FieldData RefArray :=
  {| monitor := {| geometry := {| bounds := unit_cube |} |};
     field_components :=
       <["Ez" := constant_field ez.1 ez.2]>
         (<["Ey" := constant_field ey.1 ey.2]>
            (<["Ex" := constant_field ex.1 ex.2]> ∅)) |}.

Definition crystal : JaxAnisotropicMedium :=
  {| xx := vacuum; yy := vacuum; zz := vacuum; anisotropic_fields := () |}.

(** A permittivity component that varies along [x] only: two values, and
    a single coordinate along [y], [z] and the frequency. *)
Definition eps_line (a b : float) : JaxDataArray :=
  {| values := {| shape := [2; 1; 1; 1]%nat; data := [a; b] |};
     coords := [("x", [0; 1]); ("y", [0]); ("z", [0]); ("f", [200])] |}.

Definition graded : JaxCustomMedium :=
  {| eps_dataset := {| eps_xx := eps_line 2 3; eps_yy := eps_line 2 3;
                       eps_zz := eps_line 4 4 |};
     custom_fields := () |}.

(** Field data of a point monitor at the origin. *)
Definition point_data : FieldData RefArray :=
  {| monitor := {| geometry := {| bounds := ((0, 0, 0), (0, 0, 0)) |} |};
     field_components := ∅ |}.

(** A custom medium with other permittivity values on the grid of
    [graded]. *)
Definition graded_other : JaxCustomMedium :=
  {| eps_dataset := {| eps_xx := eps_line 1 1; eps_yy := eps_line 1 2;
                       eps_zz := eps_line 0 7 |};
     custom_fields := () |}.

(** A custom medium whose [eps_xx] has no [z] coordinates. *)
Definition graded_no_z : JaxCustomMedium :=
  {| eps_dataset :=
       {| eps_xx := {| values := {| shape := [2; 1]%nat; data := [2; 2] |};
                       coords := [("x", [0; 1]); ("y", [0])] |};
          eps_yy := eps_line 2 2; eps_zz := eps_line 2 2 |};
     custom_fields := () |}.

End Examples.

Section ExportExamples.
Local Open Scope Qc_scope.

(** Inputs of the legacy export. *)
Definition pulse : Convert.SourceTime :=
  Convert.GaussianPulse 1 0 (Convert.of_Z 200) (Convert.of_Z 10) (Convert.of_Z 5).

Definition dipole : Convert.Source :=
  Convert.VolumeSource pulse (0, 0, 0) (0, 0, 0) "Jx".

Definition plane_wave : Convert.Source := Convert.OtherSource pulse.

Definition mode_monitor : Convert.Monitor :=
  {| Convert.center := (0, 0, 0); Convert.size := (1, 1, 0);
     Convert.kind := Convert.OtherMonitor |}.

Definition sim_of (sources : list (string * Convert.Source))
    (monitors : list (string * Convert.Monitor)) : Convert.Simulation :=
  {| Convert.structures := []; Convert.medium_map := [];
     Convert.sources := sources; Convert.monitors := monitors;
     Convert.run_time := 1 |}.

(** A simulation with a box, a geometry of another kind and a sphere in
    glass, a dipole, and a field monitor beside a monitor of another
    kind. *)
Definition glass : Convert.AnyMedium := Convert.Medium 2 0.

Definition field_monitor : Convert.Monitor :=
  {| Convert.center := (0, 0, 0); Convert.size := (1, 1, 0);
     Convert.kind := Convert.FieldMonitor ["Ex"; "Hy"] [Convert.of_Z 200] |}.

Definition sim_full : Convert.Simulation :=
  {| Convert.structures :=
       [ {| Convert.geometry := Convert.Box (0, 0, 0) (1, 1, 1); Convert.medium := glass |};
         {| Convert.geometry := Convert.OtherGeometry; Convert.medium := glass |};
         {| Convert.geometry := Convert.Sphere (0, 0, 0) 1; Convert.medium := glass |} ];
     Convert.medium_map := [(glass, 0%nat)];
     Convert.sources := [("dip", dipole)];
     Convert.monitors := [("modes", mode_monitor); ("field", field_monitor)];
     Convert.run_time := 1 |}.

Definition settings_full : Convert.Settings :=
  {| Convert.sim_center := (0, 0, 0); Convert.sim_size := (2, 2, 2);
     Convert.grid_size := Convert.VFloat (Convert.frac 1 10);
     Convert.symmetry := Convert.VList [Convert.VInt 0; Convert.VInt 0; Convert.VInt 0];
     Convert.pml_layers := [("standard", 12%Z)];
     Convert.courant := Convert.frac 9 10; Convert.shutoff := Convert.frac 1 100000;
     Convert.subpixel := true |}.

End ExportExamples.

(** * Properties *)

(** ** The error monad *)

Lemma bind_Ok {A B : Type} (m : result A) (k : A → result B) (b : B) :
  m ≫= k = Ok b ↔ ∃ a, m = Ok a ∧ k a = Ok b.
Proof.
  destruct m as [a|e]; simpl.
  - split; [by exists a | by intros (a' & [= <-] & ?)].
  - split; [done | by intros (a' & ? & ?)].
Qed.

Lemma getitem_Ok {V : Type} (d : gmap string V) (k : string) (v : V) :
  getitem d k = Ok v ↔ d !! k = Some v.
Proof. unfold getitem. destruct (d !! k); split; by intros [= ->]. Qed.

(** ** Division and the sampling count *)

Section Discretisation.
Context `{PyFloat}.

Lemma fdiv_Ok (a b c : pyfloat) :
  fdiv a b = Ok c ↔ feq b (of_int 0) = false ∧ c = truediv a b.
Proof.
  unfold fdiv. destruct (feq b (of_int 0)); split; try done.
  - by intros [? _].
  - by intros [= <-].
  - by intros [_ ->].
Qed.

Lemma fdiv_zero (a b : pyfloat) :
  feq b (of_int 0) = true → fdiv a b = Raise ZeroDivisionError.
Proof. intros Hb. unfold fdiv. by rewrite Hb. Qed.

(** A quotient by the float of an integer returns only when the integer
    is not zero. *)
Lemma fdiv_of_int_Ok (a c : pyfloat) (n : Z) :
  fdiv a (of_int n) = Ok c → n ≠ 0%Z.
Proof. intros [Hn _]%fdiv_Ok ->. by rewrite feq_0_0 in Hn. Qed.

Lemma num_cells_dim_Ok (size wvl_mat : pyfloat) (n : Z) :
  num_cells_dim size wvl_mat = Ok n
  ↔ ∃ q k, fdiv (size ⊗ of_int PTS_PER_WVL_INTEGRATION) wvl_mat = Ok q
           ∧ py_int q = Ok k ∧ n = (k + 1)%Z.
Proof.
  unfold num_cells_dim. rewrite bind_Ok. split.
  - intros (q & Hq & Hrest). revert Hrest. rewrite bind_Ok.
    intros (k & Hk & [= <-]). by exists q, k.
  - intros (q & k & Hq & Hk & ->). exists q. split; [done|]. by rewrite Hk.
Qed.

Lemma num_cells_dim_zero (size wvl_mat : pyfloat) :
  feq wvl_mat (of_int 0) = true →
  num_cells_dim size wvl_mat = Raise ZeroDivisionError.
Proof. intros Hw. unfold num_cells_dim. by rewrite fdiv_zero. Qed.

(** ** One iteration of the loop *)

(** An iteration over an axis without thickness changes nothing. *)
Lemma disc_step_flat (wvl_mat : pyfloat) (st : disc_state)
    (name : string) (lo hi : pyfloat) :
  feq (hi ⊖ lo) (of_int 0) = true → disc_step wvl_mat st (name, lo, hi) = Ok st.
Proof. intros Hz. unfold disc_step. destruct st as [vc dv]. by rewrite Hz. Qed.

(** An iteration over any other axis, when it does not raise. *)
Lemma disc_step_thick (wvl_mat : pyfloat) (vc vc' : gmap string (list pyfloat))
    (dv dv' : pyfloat) (name : string) (lo hi : pyfloat) :
  feq (hi ⊖ lo) (of_int 0) = false →
  disc_step wvl_mat (vc, dv) (name, lo, hi) = Ok (vc', dv')
  ↔ ∃ n d_len coords_interp,
      num_cells_dim (hi ⊖ lo) wvl_mat = Ok n
      ∧ fdiv (hi ⊖ lo) (of_int n) = Ok d_len
      ∧ linspace (lo ⊕ truediv d_len (of_int 2)) (hi ⊖ truediv d_len (of_int 2)) n
        = Ok coords_interp
      ∧ vc' = <[name := coords_interp]> vc
      ∧ dv' = dv ⊗ d_len.
Proof.
  intros Hnz. unfold disc_step. rewrite Hnz, bind_Ok. split.
  - intros (n & Hn & Hrest). revert Hrest. rewrite bind_Ok.
    intros (d_len & Hd & Hrest). revert Hrest. rewrite bind_Ok.
    intros (pts & Hl & [= <- <-]). by exists n, d_len, pts.
  - intros (n & d_len & pts & Hn & Hd & Hl & -> & ->).
    exists n. split; [done|]. rewrite Hd. simpl. by rewrite Hl.
Qed.

(** An iteration in the words of the documentation. *)
Lemma disc_step_cells (wvl_mat : pyfloat) (vc vc' : gmap string (list pyfloat))
    (dv dv' : pyfloat) (name : string) (lo hi : pyfloat) :
  disc_step wvl_mat (vc, dv) (name, lo, hi) = Ok (vc', dv')
  ↔ ∃ samples width,
      axis_cells wvl_mat lo hi samples width
      ∧ vc' = match samples with Some s => <[name := s]> vc | None => vc end
      ∧ dv' = match width with Some w => dv ⊗ w | None => dv end.
Proof.
  destruct (feq (hi ⊖ lo) (of_int 0)) eqn:Hz.
  - rewrite disc_step_flat by done. split.
    + intros [= <- <-]. exists None, None. split; [by constructor | done].
    + intros (s & w & Hc & -> & ->). destruct Hc as [_|n w s Hnz]; [done | congruence].
  - rewrite disc_step_thick by done. split.
    + intros (n & d_len & pts & Hn & Hd & Hl & -> & ->).
      exists (Some pts), (Some d_len). split; [by econstructor | done].
    + intros (s & w & Hc & -> & ->). destruct Hc as [Hflat|n w s _ Hn Hd Hl]; [congruence|].
      by exists n, w, s.
Qed.

(** The cells of an axis that contributes: at least one, as many samples
    as cells, the last of several samples half a cell below the upper
    edge. *)
Lemma axis_cells_thick (wvl_mat lo hi : pyfloat) (samples : list pyfloat)
    (width : pyfloat) :
  axis_cells wvl_mat lo hi (Some samples) (Some width) →
  ∃ cell_count,
    feq (hi ⊖ lo) (of_int 0) = false
    ∧ num_cells_dim (hi ⊖ lo) wvl_mat = Ok cell_count
    ∧ (1 ≤ cell_count)%Z
    ∧ fdiv (hi ⊖ lo) (of_int cell_count) = Ok width
    ∧ linspace (lo ⊕ truediv width (of_int 2)) (hi ⊖ truediv width (of_int 2)) cell_count
      = Ok samples
    ∧ length samples = Z.to_nat cell_count
    ∧ ((1 < cell_count)%Z → last samples = Some (hi ⊖ truediv width (of_int 2))).
Proof.
  inversion 1 as [|n w s Hnz Hn Hd Hl]; subst. exists n.
  pose proof (fdiv_of_int_Ok _ _ _ Hd) as Hn0.
  destruct (linspace_length _ _ _ _ Hl) as [Hpos Hlen].
  split_and!; try done; [lia|]. exact (linspace_last _ _ _ _ Hl).
Qed.

Lemma axis_cells_flat (wvl_mat lo hi : pyfloat)
    (samples : option (list pyfloat)) (width : option pyfloat) :
  feq (hi ⊖ lo) (of_int 0) = true →
  axis_cells wvl_mat lo hi samples width → samples = None ∧ width = None.
Proof. intros Hz. destruct 1; [done | congruence]. Qed.

End Discretisation.

(** ** The loop of [_get_volume_disc] *)

#[local] Arguments disc_step : simpl never.

Section Loop.
Context `{PyFloat}.

(** The loop skips the axes without thickness. *)
Lemma foldM_disc_step_filter (wvl_mat : pyfloat)
    (items : list (string * pyfloat * pyfloat)) (st : disc_state) :
  foldM (disc_step wvl_mat) st items
  = foldM (disc_step wvl_mat) st
      (filter (λ it, feq (it.2 ⊖ it.1.2) (of_int 0) = false) items).
Proof.
  revert st. induction items as [|[[name lo] hi] items IH]; intros st; [done|].
  rewrite filter_cons. simpl. destruct (feq (hi ⊖ lo) (of_int 0)) eqn:Hz.
  - rewrite decide_False by done. rewrite disc_step_flat by done. simpl. apply IH.
  - rewrite decide_True by done. simpl.
    destruct (disc_step _ _ _); simpl; [apply IH | done].
Qed.

(** A name whose axes have no thickness keeps its entry through the loop. *)
Lemma foldM_disc_step_lookup (wvl_mat : pyfloat)
    (items : list (string * pyfloat * pyfloat))
    (vc vc' : gmap string (list pyfloat)) (dv dv' : pyfloat) (name : string) :
  (∀ lo hi, (name, lo, hi) ∈ items → feq (hi ⊖ lo) (of_int 0) = true) →
  foldM (disc_step wvl_mat) (vc, dv) items = Ok (vc', dv') →
  vc' !! name = vc !! name.
Proof.
  revert vc dv. induction items as [|[[nm lo] hi] items IH]; intros vc dv Hflat.
  { by intros [= <- <-]. }
  cbn [foldM]. rewrite bind_Ok. intros ([vc1 dv1] & Hs & Hrest).
  rewrite (IH vc1 dv1); [| intros ???; apply Hflat; by right | done].
  apply disc_step_cells in Hs as (s & w & Hc & -> & _).
  destruct Hc as [_|n w s Hnz _ _ _]; [done|].
  apply lookup_insert_ne. intros ->.
  rewrite Hflat in Hnz; [done | by left].
Qed.

Lemma axis_items_names (b : Bound) (name : string) (lo hi lo' hi' : pyfloat) :
  (name, lo, hi) ∈ axis_items b → (name, lo', hi') ∈ axis_items b →
  lo = lo' ∧ hi = hi'.
Proof.
  destruct b as [[[x0 y0] z0] [[x1 y1] z1]]. unfold axis_items, xyz. simpl.
  rewrite !elem_of_cons, !elem_of_nil.
  intros [?|[?|[?|[]]]] [?|[?|[?|[]]]]; by simplify_eq.
Qed.

(** The coordinates after the three iterations, name by name. *)
Lemma vol_coords_lookup (sx sy sz : option (list pyfloat)) (name : string) :
  let add (k : string) (s : option (list pyfloat)) (m : gmap string (list pyfloat)) :=
    match s with Some pts => <[k := pts]> m | None => m end in
  add "z" sz (add "y" sy (add "x" sx ∅)) !! name
  = if decide (name = "x") then sx
    else if decide (name = "y") then sy
    else if decide (name = "z") then sz else None.
Proof.
  intros add. unfold add.
  destruct sx, sy, sz; repeat case_decide; by simplify_map_eq.
Qed.

End Loop.

(** ** Binary64: signs and truncation *)

Lemma binary_round_aux_nonneg (m e : Z) (l : location) :
  B64.sf_nonneg (binary_round_aux prec emax false m e l).
Proof.
  unfold binary_round_aux.
  destruct (shr_fexp prec emax m e l) as [mrs' e'].
  destruct (shr_fexp prec emax _ e' loc_Exact) as [mrs'' e''].
  destruct (shr_m mrs''); [done | | done].
  by destruct (Z.leb _ _).
Qed.

Lemma SF64mul_nonneg (x y : spec_float) :
  B64.sf_pos x → B64.sf_pos y → B64.sf_nonneg (SF64mul x y).
Proof.
  destruct x as [| [] | | [] mx ex], y as [| [] | | [] my ey]; try done; intros _ _.
  apply binary_round_aux_nonneg.
Qed.

Lemma SF64div_nonneg (x y : spec_float) :
  B64.sf_nonneg x → B64.sf_pos y → B64.sf_nonneg (SF64div x y).
Proof.
  destruct x as [[] | [] | | [] mx ex], y as [| [] | | [] my ey]; try done; intros _ _.
  unfold SF64div, SFdiv.
  destruct (SFdiv_core_binary prec emax (Z.pos mx) ex (Z.pos my) ey) as [[mz ez] lz].
  apply binary_round_aux_nonneg.
Qed.

Lemma ltb_0_pos (x : float) : PrimFloat.ltb 0 x = true → B64.sf_pos (Prim2SF x).
Proof.
  rewrite FloatAxioms.ltb_spec. change (Prim2SF 0) with (S754_zero false).
  unfold SFltb, SFcompare. by destruct (Prim2SF x) as [| [] | | [] m e].
Qed.

Lemma eqb_0_pos (x : float) : B64.sf_pos (Prim2SF x) → PrimFloat.eqb x 0 = false.
Proof.
  rewrite FloatAxioms.eqb_spec. change (Prim2SF 0) with (S754_zero false).
  unfold SFeqb, SFcompare. by destruct (Prim2SF x) as [| [] | | [] m e].
Qed.

(** The rational of a float that is not negative is not negative. *)
Lemma exact_nonneg (x : float) (v : Q) :
  B64.sf_nonneg (Prim2SF x) → B64.exact x = Some v → (0 <= v)%Q.
Proof.
  unfold B64.exact. destruct (Prim2SF x) as [s | s | | s m e]; simpl; try done.
  - by intros _ [= <-].
  - intros -> [= <-]. by destruct e.
Qed.

(** [int] agrees with the floor on what is not negative. *)
Lemma truncate_nonneg (v : Q) : (0 <= v)%Q → B64.truncate v = Qfloor v.
Proof.
  unfold B64.truncate, Qle. destruct v as [n d]; simpl.
  intros Hn. apply Z.quot_div_nonneg; lia.
Qed.

(** ** The sampling count on binary64 *)

(** C1, as amended: for a positive extent [E] and a positive wavelength
    [W], let [q] be the float that the code computes for [E * 20 / W], the
    product and then the quotient each rounded to binary64.  If [q] is
    finite, the number of cells is [floor(q) + 1], the floor taken of the
    rational that [q] denotes.  If [q] is not finite, the count raises:
    [OverflowError] on an infinity, [ValueError] on NaN. *)
Theorem num_cells_dim_floor (E W : float) :
  PrimFloat.ltb 0 E = true → PrimFloat.ltb 0 W = true →
  let q := PrimFloat.div (PrimFloat.mul E 20) W in
  match B64.exact q with
  | Some v => (0 <= v)%Q ∧ num_cells_dim E W = Ok (Qfloor v + 1)%Z
  | None =>
      num_cells_dim E W
      = Raise (if PrimFloat.is_nan q then ValueError else OverflowError)
  end.
Proof.
  intros HE%ltb_0_pos HW%ltb_0_pos q.
  assert (num_cells_dim E W = n ← B64.py_int q; Ok (n + 1)%Z) as ->.
  { unfold num_cells_dim, fdiv. cbn [feq of_int Binary64].
    change (B64.of_int 0) with 0%float. unfold B64.feq.
    by rewrite (eqb_0_pos W HW). }
  assert (B64.sf_nonneg (Prim2SF q)) as Hq.
  { unfold q. rewrite div_spec, mul_spec.
    apply SF64div_nonneg; [|done]. by apply SF64mul_nonneg. }
  unfold B64.py_int. destruct (B64.exact q) as [v|] eqn:Hv.
  - pose proof (exact_nonneg q v Hq Hv) as Hpos. split; [done|].
    simpl. by rewrite truncate_nonneg.
  - by destruct (PrimFloat.is_nan q).
Qed.

Section VolumeDisc.
Context `{PyFloat} `{!ArrayLib} `{Inherited}.

(** C2, as amended: the axes along which the intersection has no thickness
    play no part in the discretisation.  The result, an exception
    included, is that of the loop run over the other axes alone, and the
    returned coordinates have no entry for such an axis. *)
Theorem get_volume_disc_flat_axes (self : JaxMedium) (grad_data : FieldData DataArray)
    (sim_bounds : Bound) (wvl_mat : pyfloat) :
  let items := axis_items
                 (bounds_intersection (bounds (geometry (monitor grad_data))) sim_bounds) in
  _get_volume_disc self grad_data sim_bounds wvl_mat
  = foldM (disc_step wvl_mat) (∅, of_int 1)
      (filter (λ it, feq (it.2 ⊖ it.1.2) (of_int 0) = false) items)
  ∧ ∀ name lo hi vol_coords d_vol,
      (name, lo, hi) ∈ items → feq (hi ⊖ lo) (of_int 0) = true →
      _get_volume_disc self grad_data sim_bounds wvl_mat = Ok (vol_coords, d_vol) →
      vol_coords !! name = None.
Proof.
  intros items. split; [apply foldM_disc_step_filter|].
  intros name lo hi vc dv Hin Hz Hok.
  assert (∀ lo' hi', (name, lo', hi') ∈ items → feq (hi' ⊖ lo') (of_int 0) = true)
    as Hflat.
  { intros lo' hi' Hin'. by destruct (axis_items_names _ _ _ _ _ _ Hin Hin') as [<- <-]. }
  by rewrite (foldM_disc_step_lookup _ _ _ _ _ _ name Hflat Hok).
Qed.

(** C3: the discretisation returns exactly when every axis of the
    intersection has its cells: an axis without thickness none, any other
    axis [cell_count] samples spaced linearly from [min + width/2] to
    [max - width/2], with [width = extent / cell_count] and [cell_count]
    at least 1.  The coordinates returned are these samples, with no entry
    for an axis that does not contribute, and the differential volume is
    the product of the widths of the contributing axes; for a point, where
    no axis contributes, it is 1 and there are no coordinates. *)
Theorem get_volume_disc_cell_centred (self : JaxMedium) (grad_data : FieldData DataArray)
    (sim_bounds : Bound) (wvl_mat x0 y0 z0 x1 y1 z1 : pyfloat) :
  bounds_intersection (bounds (geometry (monitor grad_data))) sim_bounds
  = ((x0, y0, z0), (x1, y1, z1)) →
  (∀ vol_coords d_vol,
     _get_volume_disc self grad_data sim_bounds wvl_mat = Ok (vol_coords, d_vol)
     ↔ ∃ sx sy sz wx wy wz,
         axis_cells wvl_mat x0 x1 sx wx
         ∧ axis_cells wvl_mat y0 y1 sy wy
         ∧ axis_cells wvl_mat z0 z1 sz wz
         ∧ (∀ name, vol_coords !! name
                    = if decide (name = "x") then sx
                      else if decide (name = "y") then sy
                      else if decide (name = "z") then sz
                      else None)
         ∧ d_vol = volume_element [wx; wy; wz])
  ∧ (∀ lo hi samples width,
       axis_cells wvl_mat lo hi (Some samples) (Some width) →
       ∃ cell_count,
         feq (hi ⊖ lo) (of_int 0) = false
         ∧ num_cells_dim (hi ⊖ lo) wvl_mat = Ok cell_count
         ∧ (1 ≤ cell_count)%Z
         ∧ fdiv (hi ⊖ lo) (of_int cell_count) = Ok width
         ∧ linspace (lo ⊕ truediv width (of_int 2)) (hi ⊖ truediv width (of_int 2))
             cell_count = Ok samples
         ∧ length samples = Z.to_nat cell_count
         ∧ ((1 < cell_count)%Z → last samples = Some (hi ⊖ truediv width (of_int 2))))
  ∧ (feq (x1 ⊖ x0) (of_int 0) = true →
     feq (y1 ⊖ y0) (of_int 0) = true →
     feq (z1 ⊖ z0) (of_int 0) = true →
     _get_volume_disc self grad_data sim_bounds wvl_mat = Ok (∅, of_int 1)).
Proof.
  intros Hb. unfold _get_volume_disc. rewrite Hb. unfold axis_items, xyz.
  cbn [coord_list zip3 foldM]. split_and!.
  - intros vc dv. split.
    + rewrite bind_Ok. intros ([c1 d1] & Hs1 & Hrest). revert Hrest.
      rewrite bind_Ok. intros ([c2 d2] & Hs2 & Hrest). revert Hrest.
      rewrite bind_Ok. intros ([c3 d3] & Hs3 & [= <- <-]).
      apply disc_step_cells in Hs1 as (sx & wx & Hx & -> & ->).
      apply disc_step_cells in Hs2 as (sy & wy & Hy & -> & ->).
      apply disc_step_cells in Hs3 as (sz & wz & Hz & -> & ->).
      exists sx, sy, sz, wx, wy, wz. split_and!; try done.
      intros name. apply vol_coords_lookup.
    + intros (sx & sy & sz & wx & wy & wz & Hx & Hy & Hz & Hvc & ->).
      rewrite bind_Ok. eexists (_, _). split.
      { apply disc_step_cells. by exists sx, wx. }
      rewrite bind_Ok. eexists (_, _). split.
      { apply disc_step_cells. by exists sy, wy. }
      rewrite bind_Ok. eexists (_, _). split.
      { apply disc_step_cells. by exists sz, wz. }
      simpl. do 2 f_equal. apply map_eq. intros name.
      rewrite Hvc. apply vol_coords_lookup.
  - intros lo hi samples width. apply axis_cells_thick.
  - intros Hx Hy Hz. rewrite disc_step_flat by done. simpl.
    rewrite disc_step_flat by done. simpl. by rewrite disc_step_flat.
Qed.

End VolumeDisc.

(** ** Where the claims fail *)

(** C1 fails as stated, for two reasons.  The quotient is rounded: for
    the extent 1 and the double nearest to one tenth as wavelength the
    code takes 201 cells, where the floor of the quotient of the two
    numbers, plus 1, is 200.  And [int] truncates: the [z] axis of this
    intersection has the nonzero extent [-0.5]; at wavelength 20 the code
    takes [int(-0.5) + 1 = 1] cell, where [floor(-0.5) + 1 = 0]. *)
Lemma num_cells_dim_not_floor :
  (PrimFloat.ltb 0 1 = true
   ∧ PrimFloat.ltb 0 one_tenth = true
   ∧ num_cells_dim 1%float one_tenth = Ok 201%Z
   ∧ ∃ E W, B64.exact 1 = Some E ∧ B64.exact one_tenth = Some W
            ∧ (Qfloor (E * 20 / W) + 1)%Z = 200%Z)
  ∧ (("z", 1.5%float, 1%float) ∈ axis_items (bounds_intersection unit_cube domain_above)
     ∧ feq (1 - 1.5)%float 0%float = false
     ∧ num_cells_dim (1 - 1.5)%float 20%float = Ok 1%Z
     ∧ ∃ E W, B64.exact (1 - 1.5) = Some E ∧ B64.exact 20 = Some W
              ∧ (Qfloor (E * 20 / W) + 1)%Z = 0%Z).
Proof.
  split; split_and!; try by vm_compute.
  - eexists _, _. split_and!; by vm_compute.
  - do 2 apply list_elem_of_further. apply list_elem_of_here.
  - eexists _, _. split_and!; by vm_compute.
Qed.

(** C2 fails as stated: the two bounds do not overlap along [z], yet at
    wavelength 20 the [z] axis is sampled and puts the factor [-0.5] into
    the differential volume, and at wavelength 10 the discretisation
    raises. *)
Lemma get_volume_disc_nonoverlap :
  flt unit_cube.2.2 domain_above.1.2 = true
  ∧ (∃ vol_coords d_vol,
       _get_volume_disc vacuum cube_data domain_above 20%float = Ok (vol_coords, d_vol)
       ∧ vol_coords !! "z" = Some [1.25%float]
       ∧ d_vol = (-0.125)%float)
  ∧ _get_volume_disc vacuum cube_data domain_above 10%float = Raise ZeroDivisionError.
Proof.
  split; [done|]. split; [|by vm_compute].
  eexists _, _. split; [by vm_compute|]. split; by vm_compute.
Qed.

(** ** Field contributions and the gradients of the media *)

Section Gradients.
Context `{PyFloat} `{!ArrayLib} `{Inherited}.

(** C4: the contribution of a field is the differential volume times the
    sum of the real part of the product of the forward and the adjoint
    field, taken at frequency index 0 and interpolated onto the sample
    coordinates of the forward data's monitor region; the monitor of the
    adjoint data plays no part. *)
Theorem field_contribution_integral (self : JaxMedium) (field : string)
    (grad_data_fwd grad_data_adj : FieldData DataArray)
    (sim_bounds : Bound) (wvl_mat : pyfloat) :
  (∀ v, field_contribution self field grad_data_fwd grad_data_adj sim_bounds wvl_mat = Ok v
        ↔ ∃ vol_coords d_vol e_fwd e_adj product selected integrand,
            _get_volume_disc self grad_data_fwd sim_bounds wvl_mat = Ok (vol_coords, d_vol)
            ∧ field_components grad_data_fwd !! field = Some e_fwd
            ∧ field_components grad_data_adj !! field = Some e_adj
            ∧ da_mul e_fwd e_adj = Ok product
            ∧ da_isel (da_real product) {["f" := 0%nat]} = Ok selected
            ∧ da_interp selected vol_coords = Ok integrand
            ∧ v = d_vol ⊗ jnp_sum (da_values integrand))
  ∧ (∀ mnt, field_contribution self field grad_data_fwd
              {| monitor := mnt; field_components := field_components grad_data_adj |}
              sim_bounds wvl_mat
            = field_contribution self field grad_data_fwd grad_data_adj sim_bounds wvl_mat).
Proof.
  split; [|done]. intros v. unfold field_contribution. rewrite bind_Ok. split.
  - intros ([vc dv] & Hd & Hrest). revert Hrest.
    rewrite bind_Ok. intros (e_fwd & Hf%getitem_Ok & Hrest). revert Hrest.
    rewrite bind_Ok. intros (e_adj & Ha%getitem_Ok & Hrest). revert Hrest.
    rewrite bind_Ok. intros (product & Hm & Hrest). revert Hrest.
    rewrite bind_Ok. intros (selected & Hs & Hrest). revert Hrest.
    rewrite bind_Ok. intros (integrand & Hi & [= <-]).
    by exists vc, dv, e_fwd, e_adj, product, selected, integrand.
  - intros (vc & dv & e_fwd & e_adj & product & selected & integrand
            & Hd & Hf%getitem_Ok & Ha%getitem_Ok & Hm & Hs & Hi & ->).
    exists (vc, dv). split; [done|].
    rewrite Hf. simpl. rewrite Ha. simpl. rewrite Hm. simpl. rewrite Hs. simpl.
    by rewrite Hi.
Qed.

(** C5: the gradient of an isotropic medium is the medium with the sum
    of the contributions of [Ex], [Ey] and [Ez] for permittivity, added
    in this order to the initial [0.0], its other fields kept. *)
Theorem JaxMedium_store_vjp_sum (self : JaxMedium)
    (grad_data_fwd grad_data_adj : FieldData DataArray)
    (sim_bounds : Bound) (wvl_mat : pyfloat) (r : JaxMedium) :
  JaxMedium_store_vjp self grad_data_fwd grad_data_adj sim_bounds wvl_mat = Ok r
  ↔ ∃ cx cy cz,
      field_contribution self "Ex" grad_data_fwd grad_data_adj sim_bounds wvl_mat = Ok cx
      ∧ field_contribution self "Ey" grad_data_fwd grad_data_adj sim_bounds wvl_mat = Ok cy
      ∧ field_contribution self "Ez" grad_data_fwd grad_data_adj sim_bounds wvl_mat = Ok cz
      ∧ r = {| permittivity := of_int 0 ⊕ cx ⊕ cy ⊕ cz;
               medium_fields := medium_fields self |}.
Proof.
  unfold JaxMedium_store_vjp. cbn [foldM].
  destruct (field_contribution self "Ex" _ _ _ _) as [cx|]; simpl;
    [|split; [done | by intros (? & ? & ? & ? & ? & ? & ?)]].
  destruct (field_contribution self "Ey" _ _ _ _) as [cy|]; simpl;
    [|split; [done | by intros (? & ? & ? & ? & ? & ? & ?)]].
  destruct (field_contribution self "Ez" _ _ _ _) as [cz|]; simpl;
    [|split; [done | by intros (? & ? & ? & ? & ? & ? & ?)]].
  split.
  - intros [= <-]. by exists cx, cy, cz.
  - by intros (? & ? & ? & [= <-] & [= <-] & [= <-] & ->).
Qed.

(** A contribution reads the region of the forward monitor and the two
    arrays of its own field, nothing else. *)
Lemma field_contribution_agree (m1 m2 : JaxMedium) (field : string)
    (fwd1 adj1 fwd2 adj2 : FieldData DataArray) (sim_bounds : Bound) (wvl_mat : pyfloat) :
  bounds (geometry (monitor fwd1)) = bounds (geometry (monitor fwd2)) →
  field_components fwd1 !! field = field_components fwd2 !! field →
  field_components adj1 !! field = field_components adj2 !! field →
  field_contribution m1 field fwd1 adj1 sim_bounds wvl_mat
  = field_contribution m2 field fwd2 adj2 sim_bounds wvl_mat.
Proof.
  intros Hb Hf Ha. unfold field_contribution, _get_volume_disc, getitem.
  by rewrite Hb, Hf, Ha.
Qed.

Lemma JaxAnisotropicMedium_store_vjp_Ok (self : JaxAnisotropicMedium)
    (grad_data_fwd grad_data_adj : FieldData DataArray)
    (sim_bounds : Bound) (wvl_mat : pyfloat) (r : JaxAnisotropicMedium) :
  JaxAnisotropicMedium_store_vjp self grad_data_fwd grad_data_adj sim_bounds wvl_mat = Ok r
  ↔ ∃ vx vy vz,
      field_contribution (xx self) "Ex" grad_data_fwd grad_data_adj sim_bounds wvl_mat = Ok vx
      ∧ field_contribution (yy self) "Ey" grad_data_fwd grad_data_adj sim_bounds wvl_mat = Ok vy
      ∧ field_contribution (zz self) "Ez" grad_data_fwd grad_data_adj sim_bounds wvl_mat = Ok vz
      ∧ r = {| xx := {| permittivity := vx; medium_fields := medium_defaults |};
               yy := {| permittivity := vy; medium_fields := medium_defaults |};
               zz := {| permittivity := vz; medium_fields := medium_defaults |};
               anisotropic_fields := anisotropic_fields self |}.
Proof.
  unfold JaxAnisotropicMedium_store_vjp, xyz. cbn [foldM].
  change ("E" +:+ "x") with "Ex". change ("E" +:+ "y") with "Ey".
  change ("E" +:+ "z") with "Ez". change ("x" +:+ "x") with "xx".
  change ("y" +:+ "y") with "yy". change ("z" +:+ "z") with "zz".
  unfold getitem, components. simplify_map_eq. simpl.
  destruct (field_contribution (xx self) "Ex" _ _ _ _) as [vx|]; simpl;
    [|split; [done | by intros (? & ? & ? & ? & ? & ? & ?)]].
  simplify_map_eq. simpl.
  destruct (field_contribution (yy self) "Ey" _ _ _ _) as [vy|]; simpl;
    [|split; [done | by intros (? & ? & ? & ? & ? & ? & ?)]].
  simplify_map_eq. simpl.
  destruct (field_contribution (zz self) "Ez" _ _ _ _) as [vz|]; simpl;
    [|split; [done | by intros (? & ? & ? & ? & ? & ? & ?)]].
  unfold copy_update_components. simplify_map_eq. simpl. split.
  - intros [= <-]. by exists vx, vy, vz.
  - by intros (? & ? & ? & [= <-] & [= <-] & [= <-] & ->).
Qed.

(** C6: the gradient stored for a diagonal component of an anisotropic
    medium is the contribution of the field of its own axis, [Ex] for
    [xx], [Ey] for [yy], [Ez] for [zz], and of no other field: of two
    runs of [store_vjp] whose data have the same monitor region, a
    component comes out the same as soon as the forward and the adjoint
    array of its own field are the same, whatever the arrays of the other
    two fields. *)
Theorem JaxAnisotropicMedium_store_vjp_diagonal (self : JaxAnisotropicMedium)
    (fwd1 adj1 fwd2 adj2 : FieldData DataArray)
    (sim_bounds : Bound) (wvl_mat : pyfloat) (r1 r2 : JaxAnisotropicMedium) :
  bounds (geometry (monitor fwd1)) = bounds (geometry (monitor fwd2)) →
  JaxAnisotropicMedium_store_vjp self fwd1 adj1 sim_bounds wvl_mat = Ok r1 →
  JaxAnisotropicMedium_store_vjp self fwd2 adj2 sim_bounds wvl_mat = Ok r2 →
  ∀ component field,
    (component, field) ∈ [(xx, "Ex"); (yy, "Ey"); (zz, "Ez")] →
    field_contribution (component self) field fwd1 adj1 sim_bounds wvl_mat
    = Ok (permittivity (component r1))
    ∧ (field_components fwd1 !! field = field_components fwd2 !! field →
       field_components adj1 !! field = field_components adj2 !! field →
       component r1 = component r2).
Proof.
  intros Hb.
  rewrite !JaxAnisotropicMedium_store_vjp_Ok.
  intros (vx & vy & vz & Hx & Hy & Hz & ->) (wx & wy & wz & Hx' & Hy' & Hz' & ->).
  intros component field. rewrite !elem_of_cons, elem_of_nil.
  intros [[= -> ->]|[[= -> ->]|[[= -> ->]|[]]]]; (split; [done|]); intros Hf Ha; simpl.
  - rewrite (field_contribution_agree _ (xx self) _ _ _ fwd2 adj2) in Hx by done.
    congruence.
  - rewrite (field_contribution_agree _ (yy self) _ _ _ fwd2 adj2) in Hy by done.
    congruence.
  - rewrite (field_contribution_agree _ (zz self) _ _ _ fwd2 adj2) in Hz by done.
    congruence.
Qed.

(** C10: the simulation bounds and the wavelength play no part in the
    gradient of a custom medium. *)
Theorem JaxCustomMedium_store_vjp_ignores_bounds (self : JaxCustomMedium)
    (grad_data_fwd grad_data_adj : FieldData DataArray)
    (sim_bounds1 sim_bounds2 : Bound) (wvl_mat1 wvl_mat2 : pyfloat) :
  JaxCustomMedium_store_vjp self grad_data_fwd grad_data_adj sim_bounds1 wvl_mat1
  = JaxCustomMedium_store_vjp self grad_data_fwd grad_data_adj sim_bounds2 wvl_mat2.
Proof. reflexivity. Qed.

(** The two dicts built from the coordinates of a component: an axis
    with at most one coordinate is indexed at 0, any other axis is
    interpolated onto its coordinates. *)
Lemma coords_split (coords : list (string * list pyfloat))
    (interp_coords : gmap string (list pyfloat)) (isel_coords : gmap string nat) :
  interp_coords_of coords = Ok interp_coords →
  isel_coords_of coords = Ok isel_coords →
  ∃ cx cy cz,
    coords_get coords "x" = Ok cx
    ∧ coords_get coords "y" = Ok cy
    ∧ coords_get coords "z" = Ok cz
    ∧ ∀ d c, (d, c) ∈ [("x", cx); ("y", cy); ("z", cz)] →
        if decide (length c ≤ 1)%nat
        then isel_coords !! d = Some 0%nat ∧ interp_coords !! d = None
        else isel_coords !! d = None ∧ interp_coords !! d = Some c.
Proof.
  unfold interp_coords_of, isel_coords_of, xyz. cbn [foldM].
  destruct (coords_get coords "x") as [cx|]; simpl; [|done].
  destruct (coords_get coords "y") as [cy|]; simpl;
    [|by repeat (case_decide; simpl)].
  destruct (coords_get coords "z") as [cz|]; simpl;
    [|by repeat (case_decide; simpl)].
  intros Hi Hs. exists cx, cy, cz. split_and!; try done.
  intros d c. rewrite !elem_of_cons, elem_of_nil.
  intros [[= -> ->]|[[= -> ->]|[[= -> ->]|[]]]];
    repeat (case_decide; simpl in * ); simplify_eq; try lia;
    by simplify_map_eq.
Qed.

Lemma reshape_Ok (a b : ndarray) (s : list nat) :
  reshape a s = Ok b → shape b = s ∧ data b = data a.
Proof. unfold reshape. case_decide; [|done]. by intros [= <-]. Qed.

(** One iteration of the loop of [JaxCustomMedium.store_vjp], when it does
    not raise. *)
Lemma vjp_data_array_Ok (orig grad : JaxDataArray) (field : string)
    (grad_data_fwd grad_data_adj : FieldData DataArray) :
  vjp_data_array orig field grad_data_fwd grad_data_adj = Ok grad →
  coords grad = coords orig
  ∧ shape (values grad) = (λ kc : string * list pyfloat, length kc.2) <$> coords orig
  ∧ ∃ cx cy cz isel_coords interp_coords e_fwd e_adj product selected e_dotted,
      coords_get (coords orig) "x" = Ok cx
      ∧ coords_get (coords orig) "y" = Ok cy
      ∧ coords_get (coords orig) "z" = Ok cz
      ∧ (∀ d c, (d, c) ∈ [("x", cx); ("y", cy); ("z", cz)] →
           if decide (length c ≤ 1)%nat
           then isel_coords !! d = Some 0%nat ∧ interp_coords !! d = None
           else isel_coords !! d = None ∧ interp_coords !! d = Some c)
      ∧ field_components grad_data_fwd !! field = Some e_fwd
      ∧ field_components grad_data_adj !! field = Some e_adj
      ∧ da_mul e_fwd e_adj = Ok product
      ∧ da_isel product (<["f" := 0%nat]> isel_coords) = Ok selected
      ∧ da_interp selected interp_coords = Ok e_dotted
      ∧ data (values grad) = data (np_scale (of_int 1) (da_values (da_real e_dotted))).
Proof.
  unfold vjp_data_array.
  rewrite bind_Ok. intros (ic & Hic & Hrest). revert Hrest.
  rewrite bind_Ok. intros (sc & Hsc & Hrest). revert Hrest.
  rewrite bind_Ok. intros (e_fwd & Hf%getitem_Ok & Hrest). revert Hrest.
  rewrite bind_Ok. intros (e_adj & Ha%getitem_Ok & Hrest). revert Hrest.
  rewrite bind_Ok. intros (product & Hm & Hrest). revert Hrest.
  rewrite bind_Ok. intros (selected & Hs & Hrest). revert Hrest.
  rewrite bind_Ok. intros (e_dotted & Hi & Hrest). revert Hrest.
  rewrite bind_Ok. intros (vjp_values & [Hshape Hdata]%reshape_Ok & [= <-]).
  simpl. split; [done|]. split; [done|].
  destruct (coords_split _ _ _ Hic Hsc) as (cx & cy & cz & Hx & Hy & Hz & Hsplit).
  exists cx, cy, cz, sc, ic, e_fwd, e_adj, product, selected, e_dotted.
  split_and!; done.
Qed.

(** C7: in the gradient of a custom medium every diagonal component keeps
    its coordinates, its values have the shape of its coordinate grid, and
    they are read off the product of the forward and adjoint field of its
    axis: indexed at 0 along the frequency and along every axis with at
    most one coordinate, interpolated onto the stored coordinates along
    the other axes, and multiplied by the volume element [1.0]. *)
Theorem JaxCustomMedium_store_vjp_shape (self : JaxCustomMedium)
    (grad_data_fwd grad_data_adj : FieldData DataArray)
    (sim_bounds : Bound) (wvl_mat : pyfloat) (r : JaxCustomMedium) :
  JaxCustomMedium_store_vjp self grad_data_fwd grad_data_adj sim_bounds wvl_mat = Ok r →
  custom_fields r = custom_fields self
  ∧ ∀ component field,
      (component, field) ∈ [(eps_xx, "Ex"); (eps_yy, "Ey"); (eps_zz, "Ez")] →
      let orig := component (eps_dataset self) in
      let grad := component (eps_dataset r) in
      coords grad = coords orig
      ∧ shape (values grad) = (λ kc : string * list pyfloat, length kc.2) <$> coords orig
      ∧ ∃ cx cy cz isel_coords interp_coords e_fwd e_adj product selected e_dotted,
          coords_get (coords orig) "x" = Ok cx
          ∧ coords_get (coords orig) "y" = Ok cy
          ∧ coords_get (coords orig) "z" = Ok cz
          ∧ (∀ d c, (d, c) ∈ [("x", cx); ("y", cy); ("z", cz)] →
               if decide (length c ≤ 1)%nat
               then isel_coords !! d = Some 0%nat ∧ interp_coords !! d = None
               else isel_coords !! d = None ∧ interp_coords !! d = Some c)
          ∧ field_components grad_data_fwd !! field = Some e_fwd
          ∧ field_components grad_data_adj !! field = Some e_adj
          ∧ da_mul e_fwd e_adj = Ok product
          ∧ da_isel product (<["f" := 0%nat]> isel_coords) = Ok selected
          ∧ da_interp selected interp_coords = Ok e_dotted
          ∧ data (values grad)
            = data (np_scale (of_int 1) (da_values (da_real e_dotted))).
Proof.
  unfold JaxCustomMedium_store_vjp.
  rewrite bind_Ok. intros (gx & Hx & Hrest). revert Hrest.
  rewrite bind_Ok. intros (gy & Hy & Hrest). revert Hrest.
  rewrite bind_Ok. intros (gz & Hz & [= <-]).
  split; [done|]. intros component field. rewrite !elem_of_cons, elem_of_nil.
  intros [[= -> ->]|[[= -> ->]|[[= -> ->]|[]]]]; simpl;
    by apply vjp_data_array_Ok.
Qed.

End Gradients.

(** ** Flatten and unflatten *)

Section PyTreeRoundTrip.
Context `{PyFloat} `{Inherited}.

Lemma JaxDataArray_roundtrip (a : JaxDataArray) :
  valid_array a →
  JaxDataArray_tree_unflatten (JaxDataArray_tree_flatten a).2
    (JaxDataArray_tree_flatten a).1 = Ok a.
Proof.
  intros Hv. unfold JaxDataArray_tree_unflatten, JaxDataArray_tree_flatten. simpl.
  case_decide; [|done]. by destruct a as [[shp dat] crd].
Qed.

(** C8: for each of the three media, unflatten after flatten gives the
    medium back; a custom medium is taken well-formed, each component
    holding as many values as its shape says. *)
Theorem tree_unflatten_flatten :
  (∀ m : JaxMedium,
     JaxMedium_tree_unflatten (JaxMedium_tree_flatten m).2
       (JaxMedium_tree_flatten m).1 = Ok m)
  ∧ (∀ m : JaxAnisotropicMedium,
       JaxAnisotropicMedium_tree_unflatten (JaxAnisotropicMedium_tree_flatten m).2
         (JaxAnisotropicMedium_tree_flatten m).1 = Ok m)
  ∧ (∀ m : JaxCustomMedium,
       valid_custom_medium m →
       JaxCustomMedium_tree_unflatten (JaxCustomMedium_tree_flatten m).2
         (JaxCustomMedium_tree_flatten m).1 = Ok m).
Proof.
  split_and!.
  - by intros [p rest].
  - by intros [[px ax] [py ay] [pz az] rest].
  - intros [[ex ey ez] rest] (Hx & Hy & Hz).
    unfold valid_array in *. simpl in *.
    unfold JaxCustomMedium_tree_unflatten, JaxCustomMedium_tree_flatten. simpl.
    set (dx := data (values ex)) in *. set (dy := data (values ey)) in *.
    set (dz := data (values ez)) in *.
    assert (take (np_size (shape (values ex))) (dx ++ dy ++ dz) = dx) as ->
      by (rewrite <- Hx; apply take_app_length).
    assert (drop (np_size (shape (values ex))) (dx ++ dy ++ dz) = dy ++ dz) as ->
      by (rewrite <- Hx; apply drop_app_length).
    assert (take (np_size (shape (values ey))) (dy ++ dz) = dy) as ->
      by (rewrite <- Hy; apply take_app_length).
    assert (drop (np_size (shape (values ey))) (dy ++ dz) = dz) as ->
      by (rewrite <- Hy; apply drop_app_length).
    subst dx dy dz.
    pose proof (JaxDataArray_roundtrip ex Hx) as Rx.
    pose proof (JaxDataArray_roundtrip ey Hy) as Ry.
    pose proof (JaxDataArray_roundtrip ez Hz) as Rz.
    simpl in Rx, Ry, Rz. by rewrite Rx, Ry, Rz.
Qed.

End PyTreeRoundTrip.

(** ** Legacy export: kinds it does not support *)

Lemma dict_get_set (d : list (string * Convert.value)) (k k' : string)
    (v : Convert.value) :
  Convert.dict_get (Convert.dict_set d k v) k'
  = if decide (k = k') then Some v else Convert.dict_get d k'.
Proof.
  induction d as [|[k0 v0] d IH]; simpl.
  - by case_decide.
  - destruct (decide (k0 = k)) as [->|Hne]; simpl.
    + by case_decide.
    + rewrite IH. repeat case_decide; congruence.
Qed.

(** Updating an entry keeps the keys it has. *)
Lemma dict_get_update_is_Some (d other : list (string * Convert.value)) (k : string) :
  is_Some (Convert.dict_get d k) ∨ k ∈ other.*1 →
  is_Some (Convert.dict_get (Convert.dict_update d other) k).
Proof.
  unfold Convert.dict_update. revert d.
  induction other as [|[k0 v0] other IH]; intros d; simpl.
  - intros [?|Hin]; [done | by apply elem_of_nil in Hin].
  - intros Hk. apply IH. rewrite dict_get_set.
    destruct (decide (k0 = k)) as [->|Hne]; [by left; eexists|].
    destruct Hk as [?|Hin]; [by left|]. right.
    apply elem_of_cons in Hin as [?|?]; [congruence | done].
Qed.

(** One iteration of the loop of [old_json_structures]: a structure of a
    supported kind adds one well-formed entry, any other adds nothing. *)
Lemma structures_step_Ok (mm : list (Convert.AnyMedium * nat))
    (acc acc' : list (list (string * Convert.value))) (i : nat) (s : Convert.Structure) :
  Convert.structures_step mm acc (i, s) = Ok acc' →
  if Convert.supported_geometry (Convert.geometry s)
  then ∃ entry, acc' = acc ++ [entry] ∧ Convert.well_formed entry
  else acc' = acc.
Proof.
  unfold Convert.structures_step. rewrite bind_Ok. intros (mat_index & _ & Hrest).
  revert Hrest.
  destruct (Convert.geometry s)
    as [[[cx cy] cz] [[sx sy] sz]|[[cx cy] cz] r|[[cx cy] cz] ax r len|vs [lo hi]|];
    simpl.
  - intros [= <-]. eexists. split; [done|]. split; by vm_compute; eexists.
  - intros [= <-]. eexists. split; [done|]. split; by vm_compute; eexists.
  - rewrite bind_Ok. intros (axis_name & _ & [= <-]).
    eexists. split; [done|]. split; by vm_compute; eexists.
  - intros [= <-]. eexists. split; [done|]. split; by vm_compute; eexists.
  - by intros [= <-].
Qed.

(** The structures are exported as the documentation has it: one
    well-formed entry per structure of a supported kind, nothing for the
    others. *)
Lemma old_json_structures_skips (sim : Convert.Simulation)
    (medium_list struct_list : list (list (string * Convert.value))) :
  Convert.old_json_structures sim = Ok (medium_list, struct_list) →
  length struct_list
  = length (filter (λ s, Convert.supported_geometry (Convert.geometry s) = true)
              (Convert.structures sim))
  ∧ Forall Convert.well_formed struct_list.
Proof.
  unfold Convert.old_json_structures. rewrite bind_Ok.
  intros (sl & Hfold & [= _ <-]). revert Hfold.
  generalize (Convert.medium_map sim). intros mm.
  assert (∀ (l : list Convert.Structure) k acc acc',
            foldM (Convert.structures_step mm) acc (imap (λ i, pair (k + i)%nat) l) = Ok acc' →
            Forall Convert.well_formed acc →
            length acc'
            = (length acc
               + length (filter (λ s, Convert.supported_geometry (Convert.geometry s) = true) l))%nat
            ∧ Forall Convert.well_formed acc') as Hgen.
  { induction l as [|s l IH]; intros k acc acc'.
    - simpl. intros [= <-] Hwf. split; [lia | done].
    - cbn [imap foldM]. rewrite bind_Ok. intros (acc1 & Hstep & Hrest) Hwf.
      rewrite Nat.add_0_r in Hstep. apply structures_step_Ok in Hstep.
      rewrite filter_cons.
      erewrite imap_ext in Hrest; [apply (IH (S k)) in Hrest as [Hlen Hwf']|].
      + split; [|done]. rewrite Hlen.
        destruct (Convert.supported_geometry (Convert.geometry s)).
        * destruct Hstep as (entry & -> & _). rewrite decide_True by done.
          rewrite length_app. simpl. lia.
        * subst acc1. by rewrite decide_False by done.
      + destruct (Convert.supported_geometry (Convert.geometry s)).
        * destruct Hstep as (entry & -> & Hentry).
          apply Forall_app. split; [done|]. by constructor.
        * by subst acc1.
      + intros j x _. simpl. f_equal. lia. }
  intros Hfold. by apply (Hgen (Convert.structures sim) 0%nat [] sl).
Qed.

(** C9 fails on the code: a source of an unsupported kind is not skipped.
    Alone, it makes [old_json_sources] raise on the unbound local [src];
    after a supported source, it puts the entry of that source into the
    list a second time.  A monitor of an unsupported kind gets an entry
    without a [type]. *)
Theorem old_json_unsupported_not_skipped :
  Convert.old_json_sources (sim_of [("pw", plane_wave)] []) = Raise UnboundLocalError
  ∧ (∃ entry,
       Convert.old_json_sources (sim_of [("dip", dipole); ("pw", plane_wave)] [])
       = Ok [entry; entry]
       ∧ Convert.dict_get entry "name" = Some (Convert.VStr "dip"))
  ∧ (∃ entry,
       Convert.old_json_monitors (sim_of [] [("modes", mode_monitor)]) = Ok [entry]
       ∧ Convert.dict_get entry "name" = Some (Convert.VStr "modes")
       ∧ Convert.dict_get entry "type" = None
       ∧ ¬ Convert.well_formed entry).
Proof.
  split_and!.
  - by vm_compute.
  - eexists. split; by vm_compute.
  - eexists. split_and!; try by vm_compute.
    intros [_ [v Hv]]. by vm_compute in Hv.
Qed.

(** ** The theorems at concrete inputs *)

(** A unit extent at the double nearest to one tenth: the rounded
    quotient is 200, and there are 201 cells. *)
Lemma num_cells_dim_floor_witness :
  PrimFloat.ltb 0 1 = true
  ∧ PrimFloat.ltb 0 one_tenth = true
  ∧ B64.exact (PrimFloat.div (PrimFloat.mul 1 20) one_tenth) = Some (Qmake 7036874417766400 35184372088832)
  ∧ (0 <= Qmake 7036874417766400 35184372088832)%Q
  ∧ num_cells_dim 1%float one_tenth
    = Ok (Qfloor (Qmake 7036874417766400 35184372088832) + 1)%Z.
Proof.
  split; [reflexivity|]. split; [reflexivity|]. split; [by vm_compute|].
  exact (num_cells_dim_floor 1 one_tenth eq_refl eq_refl).
Defined.

(** The unit cube against the domain that touches it from above: the [z]
    axis has no thickness and is left out. *)
Lemma get_volume_disc_flat_axes_witness :
  ∃ vol_coords d_vol,
    _get_volume_disc vacuum cube_data domain_touching 10%float = Ok (vol_coords, d_vol)
    ∧ vol_coords !! "z" = None.
Proof.
  eexists _, _. split; [by vm_compute|].
  eapply (proj2 (@get_volume_disc_flat_axes Binary64Type Binary64 ReferenceArrays ReferenceFields
                   vacuum cube_data domain_touching 10%float)
            "z" 1%float 1%float).
  - do 2 apply list_elem_of_further. apply list_elem_of_here.
  - reflexivity.
  - by vm_compute.
Defined.

(** The unit cube in itself at wavelength 10: three cells per axis. *)
Lemma get_volume_disc_cell_centred_witness :
  ∃ vol_coords d_vol sx sy sz wx wy wz,
    _get_volume_disc vacuum cube_data unit_cube 10%float = Ok (vol_coords, d_vol)
    ∧ axis_cells 10%float 0%float 1%float sx wx
    ∧ axis_cells 10%float 0%float 1%float sy wy
    ∧ axis_cells 10%float 0%float 1%float sz wz
    ∧ (∀ name, vol_coords !! name
               = if decide (name = "x") then sx
                 else if decide (name = "y") then sy
                 else if decide (name = "z") then sz
                 else None)
    ∧ d_vol = volume_element [wx; wy; wz]
    ∧ length <$> vol_coords !! "x" = Some 3%nat.
Proof.
  assert (∃ vc dv, _get_volume_disc vacuum cube_data unit_cube 10%float = Ok (vc, dv)
                   ∧ length <$> vc !! "x" = Some 3%nat)
    as (vc & dv & Hr & Hlen) by (eexists _, _; split; by vm_compute).
  destruct (proj1 (proj1 (@get_volume_disc_cell_centred Binary64Type Binary64 ReferenceArrays
                            ReferenceFields vacuum cube_data unit_cube 10%float
                            0%float 0%float 0%float 1%float 1%float 1%float eq_refl)
                     vc dv) Hr)
    as (sx & sy & sz & wx & wy & wz & Hx & Hy & Hz & Hvc & Hdv).
  exists vc, dv, sx, sy, sz, wx, wy, wz.
  exact (conj Hr (conj Hx (conj Hy (conj Hz (conj Hvc (conj Hdv Hlen)))))).
Defined.

(** Unit forward and adjoint [Ex] over the unit cube. *)
Lemma field_contribution_integral_witness :
  ∃ v vol_coords d_vol e_fwd e_adj product selected integrand,
    _get_volume_disc vacuum (cube_fields (1, 0) (0, 0) (0, 0))%float unit_cube 10%float
    = Ok (vol_coords, d_vol)
    ∧ field_components (cube_fields (1, 0) (0, 0) (0, 0))%float !! "Ex" = Some e_fwd
    ∧ field_components (cube_fields (1, 0) (0, 0) (0, 0))%float !! "Ex" = Some e_adj
    ∧ da_mul e_fwd e_adj = Ok product
    ∧ da_isel (da_real product) {["f" := 0%nat]} = Ok selected
    ∧ da_interp selected vol_coords = Ok integrand
    ∧ v = d_vol ⊗ jnp_sum (da_values integrand).
Proof.
  eexists.
  eapply (proj1 (proj1 (@field_contribution_integral Binary64Type Binary64 ReferenceArrays
                          ReferenceFields vacuum "Ex"
                          (cube_fields (1, 0) (0, 0) (0, 0))%float
                          (cube_fields (1, 0) (0, 0) (0, 0))%float unit_cube 10%float) _)).
  by vm_compute.
Defined.

Lemma JaxMedium_store_vjp_sum_witness :
  ∃ r cx cy cz,
    JaxMedium_store_vjp vacuum (cube_fields (1, 0) (0, 0) (0, 0))%float
      (cube_fields (1, 0) (0, 0) (0, 0))%float unit_cube 10%float = Ok r
    ∧ r = {| permittivity := of_int 0 ⊕ cx ⊕ cy ⊕ cz;
             medium_fields := medium_fields vacuum |}.
Proof.
  assert (∃ r, JaxMedium_store_vjp vacuum (cube_fields (1, 0) (0, 0) (0, 0))%float
                 (cube_fields (1, 0) (0, 0) (0, 0))%float unit_cube 10%float = Ok r)
    as [r Hr] by (eexists; by vm_compute).
  destruct (proj1 (@JaxMedium_store_vjp_sum Binary64Type Binary64 ReferenceArrays ReferenceFields vacuum
                     (cube_fields (1, 0) (0, 0) (0, 0))%float
                     (cube_fields (1, 0) (0, 0) (0, 0))%float unit_cube 10%float r) Hr)
    as (cx & cy & cz & _ & _ & _ & Heq).
  exists r, cx, cy, cz. split; [exact Hr | exact Heq].
Defined.

(** Two runs with the same [Ex] and different [Ey] and [Ez]: the same
    [xx] gradient. *)
Lemma JaxAnisotropicMedium_store_vjp_diagonal_witness :
  ∃ r1 r2,
    JaxAnisotropicMedium_store_vjp crystal (cube_fields (1, 0) (2, 0) (3, 0))%float
      (cube_fields (1, 0) (1, 0) (1, 0))%float unit_cube 10%float = Ok r1
    ∧ JaxAnisotropicMedium_store_vjp crystal (cube_fields (1, 0) (7, 0) (5, 1))%float
        (cube_fields (1, 0) (0, 2) (0, 1))%float unit_cube 10%float = Ok r2
    ∧ yy r1 ≠ yy r2
    ∧ xx r1 = xx r2.
Proof.
  assert (∃ r1 r2,
            JaxAnisotropicMedium_store_vjp crystal (cube_fields (1, 0) (2, 0) (3, 0))%float
              (cube_fields (1, 0) (1, 0) (1, 0))%float unit_cube 10%float = Ok r1
            ∧ JaxAnisotropicMedium_store_vjp crystal (cube_fields (1, 0) (7, 0) (5, 1))%float
                (cube_fields (1, 0) (0, 2) (0, 1))%float unit_cube 10%float = Ok r2
            ∧ yy r1 ≠ yy r2)
    as (r1 & r2 & Hr1 & Hr2 & Hy) by (eexists _, _; split_and!; by vm_compute).
  exists r1, r2. split; [exact Hr1|]. split; [exact Hr2|]. split; [exact Hy|].
  apply (proj2 (@JaxAnisotropicMedium_store_vjp_diagonal Binary64Type Binary64 ReferenceArrays
                  ReferenceFields crystal
                  (cube_fields (1, 0) (2, 0) (3, 0))%float
                  (cube_fields (1, 0) (1, 0) (1, 0))%float
                  (cube_fields (1, 0) (7, 0) (5, 1))%float
                  (cube_fields (1, 0) (0, 2) (0, 1))%float
                  unit_cube 10%float r1 r2 eq_refl Hr1 Hr2
                  xx "Ex" ltac:(apply list_elem_of_here))); reflexivity.
Defined.

(** A custom medium with a single coordinate along [y] and [z]. *)
Lemma JaxCustomMedium_store_vjp_shape_witness :
  ∃ r,
    JaxCustomMedium_store_vjp graded (cube_fields (1, 0) (2, 0) (3, 0))%float
      (cube_fields (1, 0) (1, 0) (1, 0))%float unit_cube 10%float = Ok r
    ∧ coords (eps_xx (eps_dataset r)) = coords (eps_xx (eps_dataset graded))
    ∧ shape (values (eps_xx (eps_dataset r))) = [2; 1; 1; 1]%nat.
Proof.
  assert (∃ r, JaxCustomMedium_store_vjp graded (cube_fields (1, 0) (2, 0) (3, 0))%float
                 (cube_fields (1, 0) (1, 0) (1, 0))%float unit_cube 10%float = Ok r)
    as [r Hr] by (eexists; by vm_compute).
  destruct (proj2 (@JaxCustomMedium_store_vjp_shape Binary64Type Binary64 ReferenceArrays ReferenceFields
                     graded (cube_fields (1, 0) (2, 0) (3, 0))%float
                     (cube_fields (1, 0) (1, 0) (1, 0))%float unit_cube 10%float r Hr)
              eps_xx "Ex" ltac:(apply list_elem_of_here))
    as (Hc & Hs & _).
  exists r. split; [exact Hr|]. split; [exact Hc | exact Hs].
Defined.

Lemma tree_unflatten_flatten_witness :
  valid_custom_medium graded
  ∧ JaxCustomMedium_tree_unflatten (JaxCustomMedium_tree_flatten graded).2
      (JaxCustomMedium_tree_flatten graded).1 = Ok graded.
Proof.
  assert (valid_custom_medium graded) as Hv by (by repeat split).
  split; [exact Hv|].
  exact (proj2 (proj2 (@tree_unflatten_flatten Binary64Type ReferenceFields)) graded Hv).
Defined.

(** * Further properties *)

(** ** The discretisation at its edges *)

Section VolumeDiscMore.
Context `{PyFloat} `{!ArrayLib} `{Inherited}.

(** X4: a monitor region that is flat along every axis, a point, is
    discretised to no coordinates and the volume element 1 whatever the
    wavelength; with a wavelength equal to 0 anything else raises
    [ZeroDivisionError]. *)
Theorem get_volume_disc_degenerate (self : JaxMedium) (grad_data : FieldData DataArray)
    (sim_bounds : Bound) :
  let items := axis_items
                 (bounds_intersection (bounds (geometry (monitor grad_data))) sim_bounds) in
  (Forall (λ it, feq (it.2 ⊖ it.1.2) (of_int 0) = true) items →
   ∀ wvl_mat, _get_volume_disc self grad_data sim_bounds wvl_mat = Ok (∅, of_int 1))
  ∧ (Exists (λ it, feq (it.2 ⊖ it.1.2) (of_int 0) = false) items →
     _get_volume_disc self grad_data sim_bounds (of_int 0) = Raise ZeroDivisionError
     ∧ ∀ wvl_mat, feq wvl_mat (of_int 0) = true →
         _get_volume_disc self grad_data sim_bounds wvl_mat = Raise ZeroDivisionError).
Proof.
  intros items. unfold _get_volume_disc. fold items. generalize items. clear items.
  intros items. generalize (∅ : gmap string (list pyfloat), of_int 1). intros st. split.
  - intros Hflat wvl_mat. revert st.
    induction Hflat as [|[[nm lo] hi] l Hz _ IH]; intros st; [done|].
    cbn [foldM]. rewrite disc_step_flat by done. apply IH.
  - intros Hex.
    assert (∀ wvl_mat, feq wvl_mat (of_int 0) = true →
              foldM (disc_step wvl_mat) st items = Raise ZeroDivisionError) as Hall.
    { intros wvl_mat Hw. revert st.
      induction items as [|[[nm lo] hi] l IH]; intros st; [by apply Exists_nil in Hex|].
      cbn [foldM]. destruct (feq (hi ⊖ lo) (of_int 0)) eqn:Hz.
      - rewrite disc_step_flat by done. apply IH.
        apply Exists_cons in Hex as [Hhd|Htl]; [simpl in Hhd; congruence | done].
      - unfold disc_step. destruct st as [vc dv]. rewrite Hz.
        by rewrite num_cells_dim_zero. }
    split; [|exact Hall]. apply Hall, feq_0_0.
Qed.

(** X18: an iteration over an axis with thickness whose cell count comes
    out 0 raises [ZeroDivisionError], from [size / num_cells_dim]; if the
    count comes out negative the iteration raises as well, [np.linspace]
    taking no negative number of samples.  So the count is at least 1
    whenever the iteration returns. *)
Theorem disc_step_empty_count (wvl_mat : pyfloat) (st : disc_state)
    (name : string) (lo hi : pyfloat) (n : Z) :
  feq (hi ⊖ lo) (of_int 0) = false →
  num_cells_dim (hi ⊖ lo) wvl_mat = Ok n →
  (n = 0%Z → disc_step wvl_mat st (name, lo, hi) = Raise ZeroDivisionError)
  ∧ ((n < 0)%Z → ∃ e, disc_step wvl_mat st (name, lo, hi) = Raise e)
  ∧ (∀ st', disc_step wvl_mat st (name, lo, hi) = Ok st' → (1 ≤ n)%Z).
Proof.
  intros Hnz Hn. destruct st as [vc dv].
  assert (∀ st', disc_step wvl_mat (vc, dv) (name, lo, hi) = Ok st' → (1 ≤ n)%Z)
    as Hret.
  { intros [vc' dv'] (n' & d_len & pts & Hn' & Hd & Hl & _)%disc_step_thick; [|done].
    assert (n' = n) as -> by congruence.
    pose proof (fdiv_of_int_Ok _ _ _ Hd).
    destruct (linspace_length _ _ _ _ Hl) as [? _]. lia. }
  split_and!; [| |exact Hret].
  - intros ->. unfold disc_step. rewrite Hnz, Hn. simpl.
    by rewrite fdiv_zero by apply feq_0_0.
  - intros Hneg. destruct (disc_step wvl_mat (vc, dv) (name, lo, hi)) as [st'|e].
    + specialize (Hret st' eq_refl). lia.
    + by exists e.
Qed.

End VolumeDiscMore.

(** X19: on binary64 the discretisation leaves the bounds that exact
    arithmetic would keep.  The axis from [0.3] to [0.1 + 0.2], one unit
    in the last place thick, gets its single sample on the upper edge.
    Three axes of extent [1e-110] give the volume element [0.0].  The
    extent [0.09] at wavelength [0.03] is cut into 60 cells whose width
    times 20 equals the wavelength. *)
Theorem disc_step_binary64_edges :
  (flt three_tenths (one_tenth ⊕ two_tenths) = true
   ∧ disc_step 1%float (∅, 1%float) ("x", three_tenths, one_tenth ⊕ two_tenths)
     = Ok (<["x" := [one_tenth ⊕ two_tenths]]> ∅,
           1%float ⊗ (one_tenth ⊕ two_tenths ⊖ three_tenths)))
  ∧ (flt 0%float tiny = true
     ∧ ∃ vol_coords,
         foldM (disc_step 1%float) (∅, 1%float)
           [("x", 0%float, tiny); ("y", 0%float, tiny); ("z", 0%float, tiny)]
         = Ok (vol_coords, 0%float))
  ∧ (∃ vol_coords d_vol,
       disc_step three_hundredths (∅, 1%float) ("x", 0%float, nine_hundredths)
       = Ok (vol_coords, d_vol)
       ∧ length <$> vol_coords !! "x" = Some 60%nat
       ∧ feq (d_vol ⊗ 20%float) three_hundredths = true).
Proof.
  split_and!; try by vm_compute.
  - eexists. by vm_compute.
  - eexists _, _. split_and!; by vm_compute.
Qed.

(** ** The gradients of the media, further *)

Lemma coords_get_Raise `{FloatType} (c : list (string * list pyfloat)) (k : string) (e : exn) :
  coords_get c k = Raise e → e = KeyError.
Proof.
  induction c as [|[k' v] c IH]; simpl; [by intros [= <-]|].
  case_decide; [done | exact IH].
Qed.

Lemma reshape_size `{FloatType} (a b : ndarray) (s : list nat) :
  reshape a s = Ok b → length (data b) = np_size (shape b).
Proof. unfold reshape. case_decide; [|done]. by intros [= <-]. Qed.

Section GradientsMore.
Context `{PyFloat} `{!ArrayLib} `{Inherited}.

Lemma field_contribution_self (m1 m2 : JaxMedium) (field : string)
    (fwd adj : FieldData DataArray) (sim_bounds : Bound) (wvl_mat : pyfloat) :
  field_contribution m1 field fwd adj sim_bounds wvl_mat
  = field_contribution m2 field fwd adj sim_bounds wvl_mat.
Proof. by apply field_contribution_agree. Qed.

Lemma JaxMedium_store_vjp_unfold (self : JaxMedium)
    (fwd adj : FieldData DataArray) (sim_bounds : Bound) (wvl_mat : pyfloat) :
  JaxMedium_store_vjp self fwd adj sim_bounds wvl_mat
  = cx ← field_contribution self "Ex" fwd adj sim_bounds wvl_mat;
    cy ← field_contribution self "Ey" fwd adj sim_bounds wvl_mat;
    cz ← field_contribution self "Ez" fwd adj sim_bounds wvl_mat;
    Ok {| permittivity := of_int 0 ⊕ cx ⊕ cy ⊕ cz; medium_fields := medium_fields self |}.
Proof.
  unfold JaxMedium_store_vjp. cbn [foldM].
  destruct (field_contribution self "Ex" _ _ _ _) as [cx|]; [|done].
  destruct (field_contribution self "Ey" _ _ _ _) as [cy|]; [|done].
  destruct (field_contribution self "Ez" _ _ _ _) as [cz|]; [|done].
  done.
Qed.

(** X6: an exception of the discretisation is the exception of the
    contribution; once the discretisation has returned, a field that the
    forward or the adjoint data lack raises [KeyError]. *)
Theorem field_contribution_errors (self : JaxMedium) (field : string)
    (grad_data_fwd grad_data_adj : FieldData DataArray)
    (sim_bounds : Bound) (wvl_mat : pyfloat) :
  (∀ e, _get_volume_disc self grad_data_fwd sim_bounds wvl_mat = Raise e →
        field_contribution self field grad_data_fwd grad_data_adj sim_bounds wvl_mat
        = Raise e)
  ∧ (∀ st, _get_volume_disc self grad_data_fwd sim_bounds wvl_mat = Ok st →
           field_components grad_data_fwd !! field = None
           ∨ field_components grad_data_adj !! field = None →
           field_contribution self field grad_data_fwd grad_data_adj sim_bounds wvl_mat
           = Raise KeyError).
Proof.
  unfold field_contribution. split.
  - by intros e ->.
  - intros [vc dv] -> Hmiss. cbn [mbind result_bind]. unfold getitem.
    destruct (field_components grad_data_fwd !! field) as [e_fwd|]; [|done].
    destruct Hmiss as [Hf | Ha]; [done | by rewrite Ha].
Qed.

(** X7: the gradient of an isotropic medium does not depend on the
    medium it is taken at: another medium gets the same permittivity
    gradient, or the same exception, and keeps its own other fields. *)
Theorem JaxMedium_store_vjp_ignores_self (m1 m2 : JaxMedium)
    (grad_data_fwd grad_data_adj : FieldData DataArray)
    (sim_bounds : Bound) (wvl_mat : pyfloat) :
  match JaxMedium_store_vjp m1 grad_data_fwd grad_data_adj sim_bounds wvl_mat with
  | Ok r1 =>
      JaxMedium_store_vjp m2 grad_data_fwd grad_data_adj sim_bounds wvl_mat
      = Ok {| permittivity := permittivity r1; medium_fields := medium_fields m2 |}
  | Raise e =>
      JaxMedium_store_vjp m2 grad_data_fwd grad_data_adj sim_bounds wvl_mat = Raise e
  end.
Proof.
  rewrite !JaxMedium_store_vjp_unfold.
  rewrite !(field_contribution_self m2 m1).
  destruct (field_contribution m1 "Ex" _ _ _ _) as [cx|]; [|done].
  destruct (field_contribution m1 "Ey" _ _ _ _) as [cy|]; [|done].
  by destruct (field_contribution m1 "Ez" _ _ _ _) as [cz|].
Qed.

(** X8: the gradient of an anisotropic medium keeps the fields of the
    medium itself, but its three diagonal media are new ones: apart from
    the gradient they hold the defaults, not what the diagonal media of
    the input held. *)
Theorem JaxAnisotropicMedium_store_vjp_fields (self : JaxAnisotropicMedium)
    (grad_data_fwd grad_data_adj : FieldData DataArray)
    (sim_bounds : Bound) (wvl_mat : pyfloat) (r : JaxAnisotropicMedium) :
  JaxAnisotropicMedium_store_vjp self grad_data_fwd grad_data_adj sim_bounds wvl_mat = Ok r →
  anisotropic_fields r = anisotropic_fields self
  ∧ medium_fields (xx r) = medium_defaults
  ∧ medium_fields (yy r) = medium_defaults
  ∧ medium_fields (zz r) = medium_defaults.
Proof.
  rewrite JaxAnisotropicMedium_store_vjp_Ok.
  by intros (vx & vy & vz & _ & _ & _ & ->).
Qed.

(** X9: on the same data, the isotropic gradient is the sum of the three
    diagonal gradients of the anisotropic medium, added in the order
    [xx], [yy], [zz] to the initial [0.0]. *)
Theorem JaxMedium_store_vjp_trace (self : JaxAnisotropicMedium) (m : JaxMedium)
    (grad_data_fwd grad_data_adj : FieldData DataArray)
    (sim_bounds : Bound) (wvl_mat : pyfloat) (r : JaxAnisotropicMedium) :
  JaxAnisotropicMedium_store_vjp self grad_data_fwd grad_data_adj sim_bounds wvl_mat = Ok r →
  JaxMedium_store_vjp m grad_data_fwd grad_data_adj sim_bounds wvl_mat
  = Ok {| permittivity := of_int 0 ⊕ permittivity (xx r) ⊕ permittivity (yy r)
                          ⊕ permittivity (zz r);
          medium_fields := medium_fields m |}.
Proof.
  rewrite JaxAnisotropicMedium_store_vjp_Ok.
  intros (vx & vy & vz & Hx & Hy & Hz & ->). simpl.
  rewrite JaxMedium_store_vjp_unfold.
  rewrite (field_contribution_self m (xx self) "Ex"), Hx.
  rewrite (field_contribution_self m (yy self) "Ey"), Hy.
  by rewrite (field_contribution_self m (zz self) "Ez"), Hz.
Qed.

Lemma vjp_data_array_coords (o1 o2 : JaxDataArray) (field : string)
    (fwd adj : FieldData DataArray) :
  coords o1 = coords o2 →
  vjp_data_array o1 field fwd adj = vjp_data_array o2 field fwd adj.
Proof. intros Hc. unfold vjp_data_array. by rewrite Hc. Qed.

Lemma vjp_data_array_size (orig grad : JaxDataArray) (field : string)
    (fwd adj : FieldData DataArray) :
  vjp_data_array orig field fwd adj = Ok grad →
  length (data (values grad))
  = np_size ((λ kc : string * list pyfloat, length kc.2) <$> coords grad).
Proof.
  intros Hok. destruct (vjp_data_array_Ok _ _ _ _ _ Hok) as (Hc & Hs & _).
  rewrite Hc, <- Hs. revert Hok. unfold vjp_data_array.
  rewrite bind_Ok. intros (ic & _ & Hrest). revert Hrest.
  rewrite bind_Ok. intros (sc & _ & Hrest). revert Hrest.
  rewrite bind_Ok. intros (e_fwd & _ & Hrest). revert Hrest.
  rewrite bind_Ok. intros (e_adj & _ & Hrest). revert Hrest.
  rewrite bind_Ok. intros (product & _ & Hrest). revert Hrest.
  rewrite bind_Ok. intros (selected & _ & Hrest). revert Hrest.
  rewrite bind_Ok. intros (e_dotted & _ & Hrest). revert Hrest.
  rewrite bind_Ok. intros (vjp_values & Hr%reshape_size & [= <-]). done.
Qed.

(** X10: every component of the gradient of a custom medium holds as
    many values as its coordinate grid has points, the product of the
    lengths of its coordinate vectors. *)
Theorem JaxCustomMedium_store_vjp_size (self : JaxCustomMedium)
    (grad_data_fwd grad_data_adj : FieldData DataArray)
    (sim_bounds : Bound) (wvl_mat : pyfloat) (r : JaxCustomMedium) :
  JaxCustomMedium_store_vjp self grad_data_fwd grad_data_adj sim_bounds wvl_mat = Ok r →
  ∀ component, component ∈ [eps_xx; eps_yy; eps_zz] →
    length (data (values (component (eps_dataset r))))
    = np_size ((λ kc : string * list pyfloat, length kc.2)
                 <$> coords (component (eps_dataset self))).
Proof.
  unfold JaxCustomMedium_store_vjp.
  rewrite bind_Ok. intros (gx & Hx & Hrest). revert Hrest.
  rewrite bind_Ok. intros (gy & Hy & Hrest). revert Hrest.
  rewrite bind_Ok. intros (gz & Hz & [= <-]).
  intros component. rewrite !elem_of_cons, elem_of_nil.
  intros [-> | [-> | [-> | []]]]; simpl.
  - rewrite (vjp_data_array_size _ _ _ _ _ Hx).
    by destruct (vjp_data_array_Ok _ _ _ _ _ Hx) as (-> & _).
  - rewrite (vjp_data_array_size _ _ _ _ _ Hy).
    by destruct (vjp_data_array_Ok _ _ _ _ _ Hy) as (-> & _).
  - rewrite (vjp_data_array_size _ _ _ _ _ Hz).
    by destruct (vjp_data_array_Ok _ _ _ _ _ Hz) as (-> & _).
Qed.

(** X11: a custom medium whose [eps_xx] component has no coordinates for
    one of [x], [y], [z] makes [store_vjp] raise [KeyError], whatever the
    field data. *)
Theorem JaxCustomMedium_store_vjp_missing_axis (self : JaxCustomMedium)
    (grad_data_fwd grad_data_adj : FieldData DataArray)
    (sim_bounds : Bound) (wvl_mat : pyfloat) (dim : string) (e : exn) :
  dim ∈ xyz →
  coords_get (coords (eps_xx (eps_dataset self))) dim = Raise e →
  JaxCustomMedium_store_vjp self grad_data_fwd grad_data_adj sim_bounds wvl_mat
  = Raise KeyError.
Proof.
  intros Hdim Hmiss. unfold JaxCustomMedium_store_vjp, vjp_data_array.
  replace (interp_coords_of (coords (eps_xx (eps_dataset self))))
    with (Raise KeyError : result (gmap string (list pyfloat))); [done|].
  symmetry. unfold interp_coords_of, xyz in *. cbn [foldM].
  destruct (coords_get _ "x") as [cx|ex] eqn:Hx; cbn [mbind result_bind];
    [|by rewrite (coords_get_Raise _ _ _ Hx)].
  assert (∀ (acc : gmap string (list pyfloat)) (cx : list pyfloat),
            (if decide (1 < length cx)%nat then Ok (<["x" := cx]> acc) else Ok acc)
            = Ok (if decide (1 < length cx)%nat then <["x" := cx]> acc else acc)) as Hif
    by (intros; by case_decide).
  rewrite Hif. cbn [mbind result_bind].
  destruct (coords_get _ "y") as [cy|ey] eqn:Hy; cbn [mbind result_bind];
    [|by rewrite (coords_get_Raise _ _ _ Hy)].
  case_decide; cbn [mbind result_bind];
    (destruct (coords_get _ "z") as [cz|ez] eqn:Hz; cbn [mbind result_bind];
       [|by rewrite (coords_get_Raise _ _ _ Hz)]);
    exfalso; rewrite !elem_of_cons, elem_of_nil in Hdim;
    destruct Hdim as [-> | [-> | [-> | []]]]; congruence.
Qed.

(** X12: the gradient of a custom medium reads the coordinates of the
    medium, never its permittivity values: media with the same coordinates
    and the same other fields have the same gradient. *)
Theorem JaxCustomMedium_store_vjp_ignores_values (m1 m2 : JaxCustomMedium)
    (grad_data_fwd grad_data_adj : FieldData DataArray)
    (sim_bounds : Bound) (wvl_mat : pyfloat) :
  (∀ component, component ∈ [eps_xx; eps_yy; eps_zz] →
     coords (component (eps_dataset m1)) = coords (component (eps_dataset m2))) →
  custom_fields m1 = custom_fields m2 →
  JaxCustomMedium_store_vjp m1 grad_data_fwd grad_data_adj sim_bounds wvl_mat
  = JaxCustomMedium_store_vjp m2 grad_data_fwd grad_data_adj sim_bounds wvl_mat.
Proof.
  intros Hc Hf. unfold JaxCustomMedium_store_vjp.
  rewrite (vjp_data_array_coords (eps_xx (eps_dataset m1)) (eps_xx (eps_dataset m2)))
    by (apply Hc; apply list_elem_of_here).
  rewrite (vjp_data_array_coords (eps_yy (eps_dataset m1)) (eps_yy (eps_dataset m2)))
    by (apply Hc; apply list_elem_of_further, list_elem_of_here).
  rewrite (vjp_data_array_coords (eps_zz (eps_dataset m1)) (eps_zz (eps_dataset m2)))
    by (apply Hc; do 2 apply list_elem_of_further; apply list_elem_of_here).
  by rewrite Hf.
Qed.

End GradientsMore.

(** ** Legacy export, further *)

Lemma foldM_app {A S : Type} (body : S → A → result S) (s : S) (l1 l2 : list A) :
  foldM body s (l1 ++ l2) = s' ← foldM body s l1; foldM body s' l2.
Proof.
  revert s. induction l1 as [|a l1 IH]; intros s; simpl; [done|].
  destruct (body s a); simpl; [apply IH | done].
Qed.

(** *** Structures and materials *)

(** One iteration of the loop of [old_json_structures], in full. *)
Lemma structures_step_entry (mm : list (Convert.AnyMedium * nat))
    (acc acc' : list (list (string * Convert.value))) (i : nat) (s : Convert.Structure) :
  Convert.structures_step mm acc (i, s) = Ok acc' →
  Convert.exportable_structure mm s
  ∧ if Convert.supported_geometry (Convert.geometry s)
    then ∃ entry, acc' = acc ++ [entry]
                  ∧ Convert.entry_name entry = Some (Convert.VStr ("struct_" +:+ pretty i))
                  ∧ Convert.well_formed entry
    else acc' = acc.
Proof.
  unfold Convert.structures_step, Convert.exportable_structure.
  rewrite bind_Ok. intros (mat_index & Hm & Hrest). revert Hrest.
  destruct (Convert.geometry s)
    as [[[cx cy] cz] [[sx sy] sz]|[[cx cy] cz] r|[[cx cy] cz] ax r len|vs [lo hi]|];
    simpl.
  - intros [= <-]. split; [by eauto|]. eexists. split; [done|].
    split; [done|]. split; by eexists.
  - intros [= <-]. split; [by eauto|]. eexists. split; [done|].
    split; [done|]. split; by eexists.
  - rewrite bind_Ok. intros (axis_name & Hax & [= <-]). split.
    + split; [by eauto|]. unfold Convert.list_index in Hax.
      destruct (_ !! ax) eqn:Hl; [|done]. by apply lookup_lt_Some in Hl.
    + eexists. split; [done|]. split; [done|]. split; by eexists.
  - intros [= <-]. split; [by eauto|]. eexists. split; [done|].
    split; [done|]. split; by eexists.
  - intros [= <-]. split; [by eauto | done].
Qed.

Lemma structures_step_exportable (mm : list (Convert.AnyMedium * nat))
    (acc : list (list (string * Convert.value))) (i : nat) (s : Convert.Structure) :
  Convert.exportable_structure mm s →
  ∃ acc', Convert.structures_step mm acc (i, s) = Ok acc'.
Proof.
  unfold Convert.structures_step, Convert.exportable_structure.
  intros [[idx ->] Hgeo]. cbn [mbind result_bind].
  destruct (Convert.geometry s)
    as [[[cx cy] cz] [[sx sy] sz]|[[cx cy] cz] r|[[cx cy] cz] ax r len|vs [lo hi]|];
    try by eexists.
  unfold Convert.list_index.
  destruct (lookup_lt_is_Some_2 ["x"; "y"; "z"] ax Hgeo) as [nm ->]. by eexists.
Qed.

(** The loop over the structures from index [k] on. *)
Lemma structures_fold (mm : list (Convert.AnyMedium * nat)) (l : list Convert.Structure)
    (k : nat) (acc acc' : list (list (string * Convert.value))) :
  foldM (Convert.structures_step mm) acc (imap (λ i, pair (k + i)%nat) l) = Ok acc' →
  Forall (Convert.exportable_structure mm) l
  ∧ ∃ new,
      acc' = acc ++ new
      ∧ Forall Convert.well_formed new
      ∧ Convert.entry_name <$> new
        = (λ it : nat * Convert.Structure, Some (Convert.VStr ("struct_" +:+ pretty it.1)))
            <$> filter (λ it, Convert.supported_geometry (Convert.geometry it.2) = true)
                  (imap (λ i, pair (k + i)%nat) l).
Proof.
  revert k acc. induction l as [|s l IH]; intros k acc.
  { simpl. intros [= <-]. split; [done|]. exists []. by rewrite app_nil_r. }
  cbn [imap foldM]. rewrite bind_Ok. intros (acc1 & Hstep & Hrest).
  rewrite Nat.add_0_r in Hstep. apply structures_step_entry in Hstep as [Hexp Hstep].
  erewrite imap_ext in Hrest; [apply (IH (S k)) in Hrest as (Hall & new & -> & Hwf & Hnames)|].
  2: { intros j x _. simpl. f_equal. lia. }
  split; [by constructor|].
  rewrite filter_cons. simpl. rewrite Nat.add_0_r.
  erewrite (imap_ext _ (λ i, pair (S k + i)%nat)); [|intros j x _; simpl; f_equal; lia].
  destruct (Convert.supported_geometry (Convert.geometry s)).
  - destruct Hstep as (entry & -> & Hname & Hentry). rewrite decide_True by done.
    exists (entry :: new). rewrite <- app_assoc. split; [done|].
    split; [by constructor|]. rewrite !fmap_cons, Hname. simpl. by f_equal.
  - subst acc1. rewrite decide_False by done. by exists new.
Qed.

(** X13: the structures are exported in order, one well-formed entry
    per structure of a supported kind, named after the index of the
    structure in [sim.structures], so that a skipped structure leaves a
    gap in the numbering; every medium of [medium_map] gets an entry named
    after its index. *)
Theorem old_json_structures_entries (sim : Convert.Simulation)
    (medium_list struct_list : list (list (string * Convert.value))) :
  Convert.old_json_structures sim = Ok (medium_list, struct_list) →
  Forall Convert.well_formed struct_list
  ∧ Convert.entry_name <$> struct_list
    = (λ it : nat * Convert.Structure, Some (Convert.VStr ("struct_" +:+ pretty it.1)))
        <$> filter (λ it, Convert.supported_geometry (Convert.geometry it.2) = true)
              (imap pair (Convert.structures sim))
  ∧ Convert.entry_name <$> medium_list
    = (λ it : Convert.AnyMedium * nat, Some (Convert.VStr ("mat_" +:+ pretty it.2)))
        <$> Convert.medium_map sim.
Proof.
  unfold Convert.old_json_structures. rewrite bind_Ok.
  intros (sl & Hfold & [= <- <-]).
  apply (structures_fold _ _ 0) in Hfold as (_ & new & -> & Hwf & Hnames).
  split; [done|]. split; [exact Hnames|].
  rewrite <- list_fmap_compose. apply list_fmap_ext. intros _ [m i] _. simpl.
  by destruct m.
Qed.

(** X14: [old_json_structures] returns exactly when every structure has
    its medium in [medium_map] and every cylinder has its axis among 0, 1,
    2; a structure whose medium is missing makes it raise even when its
    geometry is of a kind that would be skipped. *)
Theorem old_json_structures_returns (sim : Convert.Simulation) :
  (∃ r, Convert.old_json_structures sim = Ok r)
  ↔ Forall (Convert.exportable_structure (Convert.medium_map sim)) (Convert.structures sim).
Proof.
  unfold Convert.old_json_structures. split.
  - intros [r Hr]. revert Hr. rewrite bind_Ok. intros (sl & Hfold & _).
    by apply (structures_fold _ _ 0) in Hfold as [Hall _].
  - intros Hall.
    assert (∀ l k acc, Forall (Convert.exportable_structure (Convert.medium_map sim)) l →
              ∃ acc', foldM (Convert.structures_step (Convert.medium_map sim)) acc
                        (imap (λ i, pair (k + i)%nat) l) = Ok acc') as Hgen.
    { induction l as [|s l IH]; intros k acc Hl; [by eexists|].
      apply Forall_cons in Hl as [Hs Hl]. cbn [imap foldM].
      destruct (structures_step_exportable _ acc (k + 0) s Hs) as [acc1 ->].
      cbn [mbind result_bind].
      destruct (IH (S k) acc1 Hl) as [acc' Hacc'].
      exists acc'. rewrite <- Hacc'. f_equal. apply imap_ext.
      intros j x _. simpl. f_equal. lia. }
    destruct (Hgen _ 0%nat [] Hall) as [sl Hsl]. simpl in Hsl.
    erewrite imap_ext; [rewrite Hsl|done]. by eexists.
Qed.

(** *** Sources *)

Lemma str_index_Ok (s : string) (i : nat) :
  (i < String.length s)%nat → ∃ c, Convert.str_index s i = Ok c.
Proof.
  unfold Convert.str_index. revert i. induction s as [|a s IH]; intros i; simpl; [lia|].
  destruct i as [|i]; [by eexists|]. intros Hi. apply IH. lia.
Qed.

(** An iteration of the loop of [old_json_sources] that does not raise
    appends one entry. *)
Lemma sources_step_appends (st st' : Convert.sources_state) (it : string * Convert.Source) :
  Convert.sources_step st it = Ok st' →
  ∃ entry, Convert.src_list st' = Convert.src_list st ++ [entry].
Proof.
  destruct it as [name source]. unfold Convert.sources_step.
  rewrite bind_Ok. intros (src & _ & Hrest). revert Hrest.
  rewrite bind_Ok. intros (appended & _ & [= <-]). by eexists.
Qed.

Lemma sources_step_exportable (st : Convert.sources_state) (name : string)
    (source : Convert.Source) :
  Convert.exportable_source source →
  ∃ st' entry,
    Convert.sources_step st (name, source) = Ok st'
    ∧ Convert.src_list st' = Convert.src_list st ++ [entry]
    ∧ Convert.entry_name entry = Some (Convert.VStr name)
    ∧ Convert.well_formed entry.
Proof.
  destruct source as [[a ph f0 fw off|a ph] c sz pol|t]; simpl; try done.
  intros Hpol. unfold Convert.sources_step. simpl.
  destruct (str_index_Ok pol 0) as [p0 ->]; [lia|].
  destruct (str_index_Ok pol 1) as [p1 ->]; [lia|].
  cbn [mbind result_bind]. eexists _, _. split; [done|]. simpl.
  split; [done|]. split; [done|]. split; by eexists.
Qed.

Lemma sources_fold_length (l : list (string * Convert.Source))
    (st st' : Convert.sources_state) :
  foldM Convert.sources_step st l = Ok st' →
  length (Convert.src_list st') = (length (Convert.src_list st) + length l)%nat.
Proof.
  revert st. induction l as [|it l IH]; intros st; simpl.
  { intros [= <-]. lia. }
  rewrite bind_Ok. intros (st1 & Hstep & Hrest).
  apply sources_step_appends in Hstep as [entry Hentry].
  rewrite (IH _ Hrest), Hentry, length_app. simpl. lia.
Qed.

Lemma sources_fold_exportable (l : list (string * Convert.Source))
    (st : Convert.sources_state) :
  Forall (λ it, Convert.exportable_source it.2) l →
  ∃ st' new,
    foldM Convert.sources_step st l = Ok st'
    ∧ Convert.src_list st' = Convert.src_list st ++ new
    ∧ Convert.entry_name <$> new = (λ it, Some (Convert.VStr it.1)) <$> l
    ∧ Forall Convert.well_formed new.
Proof.
  intros Hall. revert st. induction Hall as [|[name source] l Hs _ IH]; intros st.
  { exists st, []. by rewrite app_nil_r. }
  destruct (sources_step_exportable st name source Hs)
    as (st1 & entry & Hstep & Hlist & Hname & Hwf).
  destruct (IH st1) as (st' & new & Hfold & Hlist' & Hnames & Hwfs).
  exists st', (entry :: new). cbn [foldM]. rewrite Hstep. cbn [mbind result_bind].
  split; [done|]. split; [by rewrite Hlist', Hlist, <- app_assoc|].
  split; [by rewrite !fmap_cons, Hname, Hnames | by constructor].
Qed.

(** X15: whenever [old_json_sources] returns, its list has as many
    entries as the simulation has sources, of whatever kind; when every
    source is a volume source driven by a Gaussian pulse it does return,
    with one well-formed entry per source, in order, under the name of the
    source. *)
Theorem old_json_sources_entries (sim : Convert.Simulation) :
  (∀ l, Convert.old_json_sources sim = Ok l →
        length l = length (Convert.sources sim))
  ∧ (Forall (λ it, Convert.exportable_source it.2) (Convert.sources sim) →
     ∃ l, Convert.old_json_sources sim = Ok l
          ∧ Convert.entry_name <$> l
            = (λ it, Some (Convert.VStr it.1)) <$> Convert.sources sim
          ∧ Forall Convert.well_formed l).
Proof.
  unfold Convert.old_json_sources. split.
  - intros l. rewrite bind_Ok. intros (st & Hfold & [= <-]).
    by rewrite (sources_fold_length _ _ _ Hfold).
  - intros Hall.
    destruct (sources_fold_exportable _
                {| Convert.src_list := []; Convert.src_time := None; Convert.src := None |}
                Hall) as (st & new & -> & Hlist & Hnames & Hwf).
    simpl in Hlist. subst new. by exists (Convert.src_list st).
Qed.

(** *** Monitors *)

Lemma any_field_starts_Ok (letter : string) (fields : list string) :
  Forall (λ f, f ≠ "") fields → ∃ b, Convert.any_field_starts letter fields = Ok b.
Proof.
  intros Hne. unfold Convert.any_field_starts.
  assert (∃ flags, mapM (λ field, c ← Convert.str_index field 0;
                                  Ok (bool_decide (c = letter))) fields = Ok flags)
    as [flags ->]; [|by eexists].
  induction Hne as [|f fields Hf _ [flags IH]]; [by eexists|].
  cbn [mapM]. destruct (str_index_Ok f 0) as [c ->]; [destruct f; [done | simpl; lia]|].
  cbn [mbind result_bind]. rewrite IH. by eexists.
Qed.

Lemma field_store_Ok (fields : list string) :
  Forall (λ f, f ≠ "") fields → ∃ store, Convert.field_store fields = Ok store.
Proof.
  intros Hne. unfold Convert.field_store.
  destruct (any_field_starts_Ok "E" fields Hne) as [e ->].
  destruct (any_field_starts_Ok "H" fields Hne) as [h ->]. by eexists.
Qed.

(** An iteration of the loop of [old_json_monitors] that does not raise
    appends the entry of the monitor. *)
Lemma monitors_step_appends (sim : Convert.Simulation)
    (acc acc' : list (list (string * Convert.value))) (name : string) (m : Convert.Monitor) :
  Convert.monitors_step sim acc (name, m) = Ok acc' →
  ∃ entry, acc' = acc ++ [entry]
           ∧ Convert.entry_name entry = Some (Convert.VStr name)
           ∧ (Convert.supported_monitor m = true → Convert.well_formed entry).
Proof.
  unfold Convert.monitors_step, Convert.supported_monitor.
  destruct (Convert.center m) as [[cx cy] cz]. destruct (Convert.size m) as [[sx sy] sz].
  rewrite bind_Ok. intros (mnt & Hmnt & [= <-]). exists mnt. split; [done|].
  revert Hmnt. destruct (Convert.kind m) as [fields| |fields freqs|freqs|].
  - rewrite bind_Ok. intros (store & _ & [= <-]). split; [done|]. split; by eexists.
  - intros [= <-]. split; [done|]. split; by eexists.
  - rewrite bind_Ok. intros (store & _ & [= <-]). split; [done|]. split; by eexists.
  - intros [= <-]. split; [done|]. split; by eexists.
  - by intros [= <-].
Qed.

Lemma monitors_step_labels (sim : Convert.Simulation)
    (acc : list (list (string * Convert.value))) (name : string) (m : Convert.Monitor) :
  Forall (λ f, f ≠ "") (Convert.monitor_fields m) →
  ∃ acc', Convert.monitors_step sim acc (name, m) = Ok acc'.
Proof.
  unfold Convert.monitors_step, Convert.monitor_fields.
  destruct (Convert.center m) as [[cx cy] cz]. destruct (Convert.size m) as [[sx sy] sz].
  destruct (Convert.kind m) as [fields| |fields freqs|freqs|]; intros Hne;
    try by eexists.
  - destruct (field_store_Ok fields Hne) as [store ->]. by eexists.
  - destruct (field_store_Ok fields Hne) as [store ->]. by eexists.
Qed.

Lemma monitors_fold (sim : Convert.Simulation) (l : list (string * Convert.Monitor))
    (acc acc' : list (list (string * Convert.value))) :
  foldM (Convert.monitors_step sim) acc l = Ok acc' →
  ∃ new,
    acc' = acc ++ new
    ∧ Convert.entry_name <$> new = (λ it, Some (Convert.VStr it.1)) <$> l
    ∧ Forall2 (λ entry it, Convert.supported_monitor it.2 = true → Convert.well_formed entry)
        new l.
Proof.
  revert acc. induction l as [|[name m] l IH]; intros acc; simpl.
  { intros [= <-]. exists []. by rewrite app_nil_r. }
  rewrite bind_Ok. intros (acc1 & Hstep & Hrest).
  apply monitors_step_appends in Hstep as (entry & -> & Hname & Hwf).
  apply IH in Hrest as (new & -> & Hnames & Hwfs).
  exists (entry :: new). rewrite <- app_assoc. split; [done|].
  split; [by rewrite fmap_cons, Hname, Hnames | by constructor].
Qed.

Lemma monitors_fold_labels (sim : Convert.Simulation) (l : list (string * Convert.Monitor))
    (acc : list (list (string * Convert.value))) :
  Forall (λ it, Forall (λ f, f ≠ "") (Convert.monitor_fields it.2)) l →
  ∃ acc', foldM (Convert.monitors_step sim) acc l = Ok acc'.
Proof.
  intros Hall. revert acc. induction Hall as [|[name m] l Hm _ IH]; intros acc.
  { by eexists. }
  cbn [foldM]. destruct (monitors_step_labels sim acc name m Hm) as [acc1 ->].
  cbn [mbind result_bind]. apply IH.
Qed.

(** X16: whenever [old_json_monitors] returns, its list has one entry per
    monitor, of whatever kind, in order and under the name of the
    monitor, and the entry of a monitor of a supported kind is well
    formed; it returns as soon as no field label is the empty string. *)
Theorem old_json_monitors_entries (sim : Convert.Simulation) :
  (∀ l, Convert.old_json_monitors sim = Ok l →
        Convert.entry_name <$> l
        = (λ it, Some (Convert.VStr it.1)) <$> Convert.monitors sim
        ∧ Forall2 (λ entry it, Convert.supported_monitor it.2 = true →
                               Convert.well_formed entry)
            l (Convert.monitors sim))
  ∧ (Forall (λ it, Forall (λ f, f ≠ "") (Convert.monitor_fields it.2))
       (Convert.monitors sim) →
     ∃ l, Convert.old_json_monitors sim = Ok l).
Proof.
  unfold Convert.old_json_monitors. split.
  - intros l Hl. apply monitors_fold in Hl as (new & -> & Hnames & Hwf). done.
  - apply monitors_fold_labels.
Qed.

(** *** The whole document *)

(** X17: a simulation whose structures, sources and field labels can all
    be exported gives a document with the five sections, in this order:
    the parameters, one material per medium, one structure per structure
    of a supported kind, one source per source, one monitor per monitor. *)
Theorem export_old_json_document (settings : Convert.Settings) (sim : Convert.Simulation) :
  Forall (Convert.exportable_structure (Convert.medium_map sim)) (Convert.structures sim) →
  Forall (λ it, Convert.exportable_source it.2) (Convert.sources sim) →
  Forall (λ it, Forall (λ f, f ≠ "") (Convert.monitor_fields it.2)) (Convert.monitors sim) →
  ∃ medium_list struct_list src_list mnt_list,
    Convert.export_old_json settings sim
    = Ok [("parameters", Convert.VDict (Convert.old_json_parameters settings sim));
          ("materials", Convert.VList (Convert.VDict <$> medium_list));
          ("structures", Convert.VList (Convert.VDict <$> struct_list));
          ("sources", Convert.VList (Convert.VDict <$> src_list));
          ("monitors", Convert.VList (Convert.VDict <$> mnt_list))]
    ∧ length medium_list = length (Convert.medium_map sim)
    ∧ length struct_list
      = length (filter (λ s, Convert.supported_geometry (Convert.geometry s) = true)
                  (Convert.structures sim))
    ∧ length src_list = length (Convert.sources sim)
    ∧ length mnt_list = length (Convert.monitors sim).
Proof.
  intros Hst Hsrc Hmnt. unfold Convert.export_old_json.
  destruct (Convert.old_json_structures sim) as [[ml sl]|e] eqn:Hstruct.
  2: { exfalso. revert Hstruct. unfold Convert.old_json_structures.
       assert (∀ l k acc, Forall (Convert.exportable_structure (Convert.medium_map sim)) l →
                 ∃ acc', foldM (Convert.structures_step (Convert.medium_map sim)) acc
                           (imap (λ i, pair (k + i)%nat) l) = Ok acc') as Hgen.
       { induction l as [|s l IH]; intros k acc Hl; [by eexists|].
         apply Forall_cons in Hl as [Hs Hl]. cbn [imap foldM].
         destruct (structures_step_exportable _ acc (k + 0) s Hs) as [acc1 ->].
         cbn [mbind result_bind].
         destruct (IH (S k) acc1 Hl) as [acc' Hacc'].
         exists acc'. rewrite <- Hacc'. f_equal. apply imap_ext.
         intros j x _. simpl. f_equal. lia. }
       destruct (Hgen _ 0%nat [] Hst) as [sl Hsl]. simpl in Hsl.
       erewrite imap_ext; [rewrite Hsl|done]. done. }
  cbn [mbind result_bind].
  destruct (sources_fold_exportable _
              {| Convert.src_list := []; Convert.src_time := None; Convert.src := None |}
              Hsrc) as (st & new & Hfold & Hlist & _ & _).
  pose proof (sources_fold_length _ _ _ Hfold) as Hlen.
  unfold Convert.old_json_sources. rewrite Hfold. cbn [mbind result_bind].
  destruct (monitors_fold_labels sim _ [] Hmnt) as [mntl Hmntl].
  unfold Convert.old_json_monitors. rewrite Hmntl. cbn [mbind result_bind].
  exists ml, sl, (Convert.src_list st), mntl. split; [done|].
  destruct (old_json_structures_skips _ _ _ Hstruct) as [Hsl _].
  split_and!; try done.
  - revert Hstruct. unfold Convert.old_json_structures. rewrite bind_Ok.
    intros (? & _ & [= <- _]). by rewrite length_fmap.
  - apply monitors_fold in Hmntl as (new' & -> & Hnames & _). simpl.
    rewrite <- (length_fmap Convert.entry_name), Hnames. by rewrite length_fmap.
Qed.

(** ** The further properties at concrete inputs *)

Lemma get_volume_disc_degenerate_witness :
  _get_volume_disc vacuum point_data unit_cube 0%float = Ok (∅, 1%float)
  ∧ _get_volume_disc vacuum cube_data unit_cube 0%float = Raise ZeroDivisionError.
Proof.
  split.
  - apply (proj1 (@get_volume_disc_degenerate Binary64Type Binary64 ReferenceArrays
                    ReferenceFields vacuum point_data unit_cube)).
    repeat constructor.
  - refine (proj1 (proj2 (@get_volume_disc_degenerate Binary64Type Binary64 ReferenceArrays
                            ReferenceFields vacuum cube_data unit_cube) _)).
    apply Exists_cons_hd. reflexivity.
Defined.

(** The [z] axis of the unit cube against the domain above it, at
    wavelength 10: the count is [int(-1.0) + 1 = 0]. *)
Lemma disc_step_empty_count_witness :
  num_cells_dim (1 - 1.5)%float 10%float = Ok 0%Z
  ∧ disc_step 10%float (∅, 1%float) ("z", 1.5%float, 1%float) = Raise ZeroDivisionError.
Proof.
  split; [by vm_compute|].
  exact (proj1 (@disc_step_empty_count Binary64Type Binary64 10%float (∅, 1%float)
                  "z" 1.5%float 1%float 0%Z eq_refl eq_refl) eq_refl).
Defined.

Lemma field_contribution_errors_witness :
  field_contribution vacuum "Ex" cube_data cube_data unit_cube 10%float = Raise KeyError.
Proof.
  eapply (proj2 (@field_contribution_errors Binary64Type Binary64 ReferenceArrays ReferenceFields
                   vacuum "Ex" cube_data cube_data unit_cube 10%float)).
  - by vm_compute.
  - by left.
Defined.

Lemma JaxAnisotropicMedium_store_vjp_fields_witness :
  ∃ r,
    JaxAnisotropicMedium_store_vjp crystal (cube_fields (1, 0) (2, 0) (3, 0))%float
      (cube_fields (1, 0) (1, 0) (1, 0))%float unit_cube 10%float = Ok r
    ∧ anisotropic_fields r = anisotropic_fields crystal
    ∧ medium_fields (xx r) = medium_defaults
    ∧ medium_fields (yy r) = medium_defaults
    ∧ medium_fields (zz r) = medium_defaults.
Proof.
  assert (∃ r, JaxAnisotropicMedium_store_vjp crystal
                 (cube_fields (1, 0) (2, 0) (3, 0))%float
                 (cube_fields (1, 0) (1, 0) (1, 0))%float unit_cube 10%float = Ok r)
    as [r Hr] by (eexists; by vm_compute).
  exists r. split; [exact Hr|].
  exact (@JaxAnisotropicMedium_store_vjp_fields Binary64Type Binary64 ReferenceArrays ReferenceFields
           crystal _ _ unit_cube 10%float r Hr).
Defined.

Lemma JaxMedium_store_vjp_trace_witness :
  ∃ r,
    JaxAnisotropicMedium_store_vjp crystal (cube_fields (1, 0) (2, 0) (3, 0))%float
      (cube_fields (1, 0) (1, 0) (1, 0))%float unit_cube 10%float = Ok r
    ∧ JaxMedium_store_vjp vacuum (cube_fields (1, 0) (2, 0) (3, 0))%float
        (cube_fields (1, 0) (1, 0) (1, 0))%float unit_cube 10%float
      = Ok {| permittivity :=
                of_int 0 ⊕ permittivity (xx r) ⊕ permittivity (yy r)
                ⊕ permittivity (zz r);
              medium_fields := medium_fields vacuum |}.
Proof.
  assert (∃ r, JaxAnisotropicMedium_store_vjp crystal
                 (cube_fields (1, 0) (2, 0) (3, 0))%float
                 (cube_fields (1, 0) (1, 0) (1, 0))%float unit_cube 10%float = Ok r)
    as [r Hr] by (eexists; by vm_compute).
  exists r. split; [exact Hr|].
  exact (@JaxMedium_store_vjp_trace Binary64Type Binary64 ReferenceArrays ReferenceFields
           crystal vacuum _ _ unit_cube 10%float r Hr).
Defined.

Lemma JaxCustomMedium_store_vjp_size_witness :
  ∃ r,
    JaxCustomMedium_store_vjp graded (cube_fields (1, 0) (2, 0) (3, 0))%float
      (cube_fields (1, 0) (1, 0) (1, 0))%float unit_cube 10%float = Ok r
    ∧ length (data (values (eps_yy (eps_dataset r)))) = 2%nat.
Proof.
  assert (∃ r, JaxCustomMedium_store_vjp graded (cube_fields (1, 0) (2, 0) (3, 0))%float
                 (cube_fields (1, 0) (1, 0) (1, 0))%float unit_cube 10%float = Ok r)
    as [r Hr] by (eexists; by vm_compute).
  exists r. split; [exact Hr|].
  exact (@JaxCustomMedium_store_vjp_size Binary64Type Binary64 ReferenceArrays ReferenceFields
           graded _ _ unit_cube 10%float r Hr eps_yy
           ltac:(apply list_elem_of_further, list_elem_of_here)).
Defined.

Lemma JaxCustomMedium_store_vjp_missing_axis_witness :
  JaxCustomMedium_store_vjp graded_no_z (cube_fields (1, 0) (2, 0) (3, 0))%float
    (cube_fields (1, 0) (1, 0) (1, 0))%float unit_cube 10%float = Raise KeyError.
Proof.
  apply (@JaxCustomMedium_store_vjp_missing_axis Binary64Type Binary64 ReferenceArrays ReferenceFields
           graded_no_z _ _ unit_cube 10%float "z" KeyError).
  - do 2 apply list_elem_of_further. apply list_elem_of_here.
  - reflexivity.
Defined.

Lemma JaxCustomMedium_store_vjp_ignores_values_witness :
  JaxCustomMedium_store_vjp graded (cube_fields (1, 0) (2, 0) (3, 0))%float
    (cube_fields (1, 0) (1, 0) (1, 0))%float unit_cube 10%float
  = JaxCustomMedium_store_vjp graded_other (cube_fields (1, 0) (2, 0) (3, 0))%float
      (cube_fields (1, 0) (1, 0) (1, 0))%float unit_cube 10%float.
Proof.
  apply (@JaxCustomMedium_store_vjp_ignores_values Binary64Type Binary64 ReferenceArrays ReferenceFields
           graded graded_other).
  - intros component. rewrite !elem_of_cons, elem_of_nil.
    intros [-> | [-> | [-> | []]]]; reflexivity.
  - reflexivity.
Defined.

Lemma old_json_structures_entries_witness :
  ∃ medium_list struct_list,
    Convert.old_json_structures sim_full = Ok (medium_list, struct_list)
    ∧ Convert.entry_name <$> struct_list
      = [Some (Convert.VStr "struct_0"); Some (Convert.VStr "struct_2")]
    ∧ Convert.entry_name <$> medium_list = [Some (Convert.VStr "mat_0")].
Proof.
  assert (∃ r, Convert.old_json_structures sim_full = Ok r)
    as [[ml sl] Hr] by (eexists; by vm_compute).
  exists ml, sl. split; [exact Hr|].
  destruct (old_json_structures_entries sim_full ml sl Hr) as (_ & Hs & Hm).
  split; [exact Hs | exact Hm].
Defined.

Lemma old_json_structures_returns_witness :
  ∃ r, Convert.old_json_structures sim_full = Ok r.
Proof.
  apply (proj2 (old_json_structures_returns sim_full)).
  repeat constructor; by eexists.
Defined.

Lemma old_json_sources_entries_witness :
  ∃ l, Convert.old_json_sources sim_full = Ok l
       ∧ Convert.entry_name <$> l = [Some (Convert.VStr "dip")]
       ∧ Forall Convert.well_formed l.
Proof.
  apply (proj2 (old_json_sources_entries sim_full)).
  repeat constructor.
Defined.

Lemma old_json_monitors_entries_witness :
  ∃ l, Convert.old_json_monitors sim_full = Ok l.
Proof.
  apply (proj2 (old_json_monitors_entries sim_full)).
  repeat constructor; done.
Defined.

Lemma export_old_json_document_witness :
  ∃ medium_list struct_list src_list mnt_list,
    Convert.export_old_json settings_full sim_full
    = Ok [("parameters", Convert.VDict (Convert.old_json_parameters settings_full sim_full));
          ("materials", Convert.VList (Convert.VDict <$> medium_list));
          ("structures", Convert.VList (Convert.VDict <$> struct_list));
          ("sources", Convert.VList (Convert.VDict <$> src_list));
          ("monitors", Convert.VList (Convert.VDict <$> mnt_list))]
    ∧ length medium_list = 1%nat
    ∧ length struct_list = 2%nat
    ∧ length src_list = 1%nat
    ∧ length mnt_list = 2%nat.
Proof.
  apply (export_old_json_document settings_full sim_full).
  - repeat constructor; by eexists.
  - repeat constructor.
  - repeat constructor; done.
Defined.
